(** * mbed_tools.build.flash: flashing a built image onto a connected board

    A shallow embedding of [src/mbed_tools/build/flash.py] together with the
    parts of the Python runtime it calls ([str.upper], [pathlib], [shutil.copy],
    [os.sync], [platform.system]) and the properties of the flashing pipeline.

    Conventions.
    - A Python [str] is a list of Unicode code points ([list N]).
    - A [pathlib.Path] is kept in parsed form (anchor and components), in
      pathlib's POSIX flavour.
    - Effects of the operating system are explicit: a computation is a function
      from a [World] to an [outcome] holding the result (a value or a raised
      exception), the world afterwards and the list of external calls made. *)

From Stdlib Require Import List NArith ZArith Bool Lia String Ascii.
From Stdlib Require Strings.Byte.
Import ListNotations.

Set Implicit Arguments.

(** ** Python strings *)

Module PyStr.

Definition str := list N.

(** A literal: the code points of an ASCII string. *)
Definition py (s : string) : str := map N_of_ascii (list_ascii_of_string s).

Definition str_eq_dec : forall a b : str, {a = b} + {a <> b} :=
  list_eq_dec N.eq_dec.

(** [a == b] on [str]. *)
Definition str_eqb (a b : str) : bool :=
  if str_eq_dec a b then true else false.

(** [c in s]. *)
Definition contains (c : N) (s : str) : bool := existsb (N.eqb c) s.

(** [s.startswith(c)] for a one-character prefix. *)
Definition startswith (c : N) (s : str) : bool :=
  match s with
  | x :: _ => N.eqb x c
  | [] => false
  end.

(** [s.lstrip(c)]. *)
Fixpoint lstrip (c : N) (s : str) : str :=
  match s with
  | x :: s' => if N.eqb x c then lstrip c s' else s
  | [] => []
  end.

(** [s.split(c)]: the pieces between occurrences of [c]; never empty. *)
Fixpoint split (c : N) (s : str) : list str :=
  match s with
  | [] => [[]]
  | x :: s' =>
      if N.eqb x c then [] :: split c s'
      else match split c s' with
           | h :: t => (x :: h) :: t
           | [] => [[x]]
           end
  end.

(** [sep.join(parts)]. *)
Fixpoint join (c : N) (parts : list str) : str :=
  match parts with
  | [] => []
  | [p] => p
  | p :: rest => p ++ c :: join c rest
  end.

Fixpoint rfind_from (c : N) (s : str) (i acc : Z) : Z :=
  match s with
  | [] => acc
  | x :: s' => rfind_from c s' (i + 1)%Z (if N.eqb x c then i else acc)
  end.

(** [s.rfind(c)]: the index of the last occurrence of [c], or -1. *)
Definition rfind (c : N) (s : str) : Z := rfind_from c s 0%Z (-1)%Z.

(** The upper-case mapping of Unicode 14.0, the one [str.upper] of CPython
    3.11 applies: the full mapping of [SpecialCasing.txt] where a code point
    has one, the simple mapping of [UnicodeData.txt] otherwise. A run
    [(lo, hi, step, u)] says that the code points [lo], [lo + step], ... up
    to [hi] map to [u], [u + step], ...; code points in no entry map to
    themselves. *)
Definition upper_runs : list (N * N * N * N) :=
  [
   (97, 122, 1, 65); (181, 181, 1, 924); (224, 246, 1, 192);
   (248, 254, 1, 216); (255, 255, 1, 376); (257, 303, 2, 256);
   (305, 305, 1, 73); (307, 311, 2, 306); (314, 328, 2, 313);
   (331, 375, 2, 330); (378, 382, 2, 377); (383, 383, 1, 83);
   (384, 384, 1, 579); (387, 389, 2, 386); (392, 392, 1, 391);
   (396, 396, 1, 395); (402, 402, 1, 401); (405, 405, 1, 502);
   (409, 409, 1, 408); (410, 410, 1, 573); (414, 414, 1, 544);
   (417, 421, 2, 416); (424, 424, 1, 423); (429, 429, 1, 428);
   (432, 432, 1, 431); (436, 438, 2, 435); (441, 441, 1, 440);
   (445, 445, 1, 444); (447, 447, 1, 503); (453, 453, 1, 452);
   (454, 454, 1, 452); (456, 456, 1, 455); (457, 457, 1, 455);
   (459, 459, 1, 458); (460, 460, 1, 458); (462, 476, 2, 461);
   (477, 477, 1, 398); (479, 495, 2, 478); (498, 498, 1, 497);
   (499, 499, 1, 497); (501, 501, 1, 500); (505, 543, 2, 504);
   (547, 563, 2, 546); (572, 572, 1, 571); (575, 576, 1, 11390);
   (578, 578, 1, 577); (583, 591, 2, 582); (592, 592, 1, 11375);
   (593, 593, 1, 11373); (594, 594, 1, 11376); (595, 595, 1, 385);
   (596, 596, 1, 390); (598, 599, 1, 393); (601, 601, 1, 399);
   (603, 603, 1, 400); (604, 604, 1, 42923); (608, 608, 1, 403);
   (609, 609, 1, 42924); (611, 611, 1, 404); (613, 613, 1, 42893);
   (614, 614, 1, 42922); (616, 616, 1, 407); (617, 617, 1, 406);
   (618, 618, 1, 42926); (619, 619, 1, 11362); (620, 620, 1, 42925);
   (623, 623, 1, 412); (625, 625, 1, 11374); (626, 626, 1, 413);
   (629, 629, 1, 415); (637, 637, 1, 11364); (640, 640, 1, 422);
   (642, 642, 1, 42949); (643, 643, 1, 425); (647, 647, 1, 42929);
   (648, 648, 1, 430); (649, 649, 1, 580); (650, 651, 1, 433);
   (652, 652, 1, 581); (658, 658, 1, 439); (669, 669, 1, 42930);
   (670, 670, 1, 42928); (837, 837, 1, 921); (881, 883, 2, 880);
   (887, 887, 1, 886); (891, 893, 1, 1021); (940, 940, 1, 902);
   (941, 943, 1, 904); (945, 961, 1, 913); (962, 962, 1, 931);
   (963, 971, 1, 931); (972, 972, 1, 908); (973, 974, 1, 910);
   (976, 976, 1, 914); (977, 977, 1, 920); (981, 981, 1, 934);
   (982, 982, 1, 928); (983, 983, 1, 975); (985, 1007, 2, 984);
   (1008, 1008, 1, 922); (1009, 1009, 1, 929); (1010, 1010, 1, 1017);
   (1011, 1011, 1, 895); (1013, 1013, 1, 917); (1016, 1016, 1, 1015);
   (1019, 1019, 1, 1018); (1072, 1103, 1, 1040); (1104, 1119, 1, 1024);
   (1121, 1153, 2, 1120); (1163, 1215, 2, 1162); (1218, 1230, 2, 1217);
   (1231, 1231, 1, 1216); (1233, 1327, 2, 1232); (1377, 1414, 1, 1329);
   (4304, 4346, 1, 7312); (4349, 4351, 1, 7357); (5112, 5117, 1, 5104);
   (7296, 7296, 1, 1042); (7297, 7297, 1, 1044); (7298, 7298, 1, 1054);
   (7299, 7300, 1, 1057); (7301, 7301, 1, 1058); (7302, 7302, 1, 1066);
   (7303, 7303, 1, 1122); (7304, 7304, 1, 42570); (7545, 7545, 1, 42877);
   (7549, 7549, 1, 11363); (7566, 7566, 1, 42950); (7681, 7829, 2, 7680);
   (7835, 7835, 1, 7776); (7841, 7935, 2, 7840); (7936, 7943, 1, 7944);
   (7952, 7957, 1, 7960); (7968, 7975, 1, 7976); (7984, 7991, 1, 7992);
   (8000, 8005, 1, 8008); (8017, 8023, 2, 8025); (8032, 8039, 1, 8040);
   (8048, 8049, 1, 8122); (8050, 8053, 1, 8136); (8054, 8055, 1, 8154);
   (8056, 8057, 1, 8184); (8058, 8059, 1, 8170); (8060, 8061, 1, 8186);
   (8112, 8113, 1, 8120); (8126, 8126, 1, 921); (8144, 8145, 1, 8152);
   (8160, 8161, 1, 8168); (8165, 8165, 1, 8172); (8526, 8526, 1, 8498);
   (8560, 8575, 1, 8544); (8580, 8580, 1, 8579); (9424, 9449, 1, 9398);
   (11312, 11359, 1, 11264); (11361, 11361, 1, 11360);
   (11365, 11365, 1, 570); (11366, 11366, 1, 574); (11368, 11372, 2, 11367);
   (11379, 11379, 1, 11378); (11382, 11382, 1, 11381);
   (11393, 11491, 2, 11392); (11500, 11502, 2, 11499);
   (11507, 11507, 1, 11506); (11520, 11557, 1, 4256);
   (11559, 11559, 1, 4295); (11565, 11565, 1, 4301);
   (42561, 42605, 2, 42560); (42625, 42651, 2, 42624);
   (42787, 42799, 2, 42786); (42803, 42863, 2, 42802);
   (42874, 42876, 2, 42873); (42879, 42887, 2, 42878);
   (42892, 42892, 1, 42891); (42897, 42899, 2, 42896);
   (42900, 42900, 1, 42948); (42903, 42921, 2, 42902);
   (42933, 42947, 2, 42932); (42952, 42954, 2, 42951);
   (42961, 42961, 1, 42960); (42967, 42969, 2, 42966);
   (42998, 42998, 1, 42997); (43859, 43859, 1, 42931);
   (43888, 43967, 1, 5024); (65345, 65370, 1, 65313);
   (66600, 66639, 1, 66560); (66776, 66811, 1, 66736);
   (66967, 66977, 1, 66928); (66979, 66993, 1, 66940);
   (66995, 67001, 1, 66956); (67003, 67004, 1, 66964);
   (68800, 68850, 1, 68736); (71872, 71903, 1, 71840);
   (93792, 93823, 1, 93760); (125218, 125251, 1, 125184)
  ]%N.

Definition upper_special : list (N * list N) :=
  [
   (223, [83; 83]); (329, [700; 78]); (496, [74; 780]);
   (912, [921; 776; 769]); (944, [933; 776; 769]); (1415, [1333; 1362]);
   (7830, [72; 817]); (7831, [84; 776]); (7832, [87; 778]);
   (7833, [89; 778]); (7834, [65; 702]); (8016, [933; 787]);
   (8018, [933; 787; 768]); (8020, [933; 787; 769]); (8022, [933; 787; 834]);
   (8064, [7944; 921]); (8065, [7945; 921]); (8066, [7946; 921]);
   (8067, [7947; 921]); (8068, [7948; 921]); (8069, [7949; 921]);
   (8070, [7950; 921]); (8071, [7951; 921]); (8072, [7944; 921]);
   (8073, [7945; 921]); (8074, [7946; 921]); (8075, [7947; 921]);
   (8076, [7948; 921]); (8077, [7949; 921]); (8078, [7950; 921]);
   (8079, [7951; 921]); (8080, [7976; 921]); (8081, [7977; 921]);
   (8082, [7978; 921]); (8083, [7979; 921]); (8084, [7980; 921]);
   (8085, [7981; 921]); (8086, [7982; 921]); (8087, [7983; 921]);
   (8088, [7976; 921]); (8089, [7977; 921]); (8090, [7978; 921]);
   (8091, [7979; 921]); (8092, [7980; 921]); (8093, [7981; 921]);
   (8094, [7982; 921]); (8095, [7983; 921]); (8096, [8040; 921]);
   (8097, [8041; 921]); (8098, [8042; 921]); (8099, [8043; 921]);
   (8100, [8044; 921]); (8101, [8045; 921]); (8102, [8046; 921]);
   (8103, [8047; 921]); (8104, [8040; 921]); (8105, [8041; 921]);
   (8106, [8042; 921]); (8107, [8043; 921]); (8108, [8044; 921]);
   (8109, [8045; 921]); (8110, [8046; 921]); (8111, [8047; 921]);
   (8114, [8122; 921]); (8115, [913; 921]); (8116, [902; 921]);
   (8118, [913; 834]); (8119, [913; 834; 921]); (8124, [913; 921]);
   (8130, [8138; 921]); (8131, [919; 921]); (8132, [905; 921]);
   (8134, [919; 834]); (8135, [919; 834; 921]); (8140, [919; 921]);
   (8146, [921; 776; 768]); (8147, [921; 776; 769]); (8150, [921; 834]);
   (8151, [921; 776; 834]); (8162, [933; 776; 768]); (8163, [933; 776; 769]);
   (8164, [929; 787]); (8166, [933; 834]); (8167, [933; 776; 834]);
   (8178, [8186; 921]); (8179, [937; 921]); (8180, [911; 921]);
   (8182, [937; 834]); (8183, [937; 834; 921]); (8188, [937; 921]);
   (64256, [70; 70]); (64257, [70; 73]); (64258, [70; 76]);
   (64259, [70; 70; 73]); (64260, [70; 70; 76]); (64261, [83; 84]);
   (64262, [83; 84]); (64275, [1348; 1350]); (64276, [1348; 1333]);
   (64277, [1348; 1339]); (64278, [1358; 1350]); (64279, [1348; 1341])
  ]%N.

Definition in_run (c : N) (r : N * N * N * N) : bool :=
  match r with
  | (lo, hi, step, _) =>
      N.leb lo c && N.leb c hi && N.eqb ((c - lo) mod step) 0
  end.

(** [_PyUnicode_ToUpperFull]. *)
Definition unicode_upper_full (c : N) : list N :=
  match find (fun e => N.eqb (fst e) c) upper_special with
  | Some e => snd e
  | None =>
      match find (in_run c) upper_runs with
      | Some (lo, _, _, u) => [(u + (c - lo))%N]
      | None => [c]
      end
  end.

(** The case mapping of ASCII alone: [a]..[z] go to [A]..[Z]. It says what
    the Unicode mapping does below 128 and is no table of [str.upper]. *)
Definition ascii_upper_full (c : N) : list N :=
  if (N.leb 97 c && N.leb c 122)%bool then [(c - 32)%N] else [c].

(** Two code points that are the same ASCII letter up to case, or equal. *)
Definition same_letter (a b : N) : bool :=
  N.eqb a b
  || (N.leb 97 a && N.leb a 122 && N.eqb b (a - 32))
  || (N.leb 97 b && N.leb b 122 && N.eqb a (b - 32)).

(** Letter-by-letter comparison ignoring ASCII case. *)
Fixpoint same_letters (a b : str) : bool :=
  match a, b with
  | [], [] => true
  | x :: a', y :: b' => same_letter x y && same_letters a' b'
  | _, _ => false
  end.

End PyStr.
Import PyStr.

(** ** pathlib, POSIX flavour *)

Module Pathlib.

Definition sep : N := 47.
Definition dot : N := 46.

(** A parsed path: [anchor] is the root ([""], ["/"] or ["//"]), [comps] the
    components after it. Python keeps the anchor as the first element of
    [_parts]; here it is a field of its own. *)
Record Path := mkPath { anchor : str; comps : list str }.

Definition Path_eq_dec : forall p q : Path, {p = q} + {p <> q}.
Proof.
  decide equality; apply (list_eq_dec (list_eq_dec N.eq_dec)) || apply str_eq_dec.
Defined.

Definition path_eqb (p q : Path) : bool :=
  if Path_eq_dec p q then true else false.

(** [_PosixFlavour.splitroot]: root and remainder of one string. *)
Definition splitroot (part : str) : str * str :=
  if startswith sep part then
    let stripped_part := lstrip sep part in
    if Nat.eqb (List.length part - List.length stripped_part) 2
    then ([sep; sep], stripped_part)
    else ([sep], stripped_part)
  else ([], part).

(** [_Flavour.parse_parts] on one string: empty and ["."] pieces vanish. *)
Definition parse_parts (part : str) : Path :=
  let (root, rel) := splitroot part in
  mkPath root
    (filter (fun x => negb (str_eqb x []) && negb (str_eqb x [dot]))
            (split sep rel)).

(** [PosixPath(s)]. *)
Definition PosixPath (s : string) : Path := parse_parts (py s).

(** [_Flavour.join_parsed_parts] without drives. *)
Definition join_parsed_parts (p q : Path) : Path :=
  match anchor q with
  | [] => mkPath (anchor p) (comps p ++ comps q)
  | _ => q
  end.

(** [p / key] for a string [key]. *)
Definition truediv (p : Path) (key : str) : Path :=
  join_parsed_parts p (parse_parts key).

(** [str(p)]. *)
Definition path_str (p : Path) : str :=
  match anchor p ++ join sep (comps p) with
  | [] => [dot]
  | s => s
  end.

(** [p.name]: the last component, or [""]. *)
Definition name (p : Path) : str := last (comps p) [].

(** [p.suffix]. *)
Definition suffix (p : Path) : str :=
  let name := name p in
  let i := rfind dot name in
  if ((0 <? i)%Z && (i <? Z.of_nat (List.length name) - 1)%Z)%bool
  then skipn (Z.to_nat i) name
  else [].

(** [p.stem]: the name without its suffix. *)
Definition stem (p : Path) : str :=
  let name := name p in
  let i := rfind dot name in
  if ((0 <? i)%Z && (i <? Z.of_nat (List.length name) - 1)%Z)%bool
  then firstn (Z.to_nat i) name
  else name.

(** [p.parent]. *)
Definition parent (p : Path) : Path :=
  mkPath (anchor p) (removelast (comps p)).

(** [p.with_suffix(sfx)]; [None] stands for the [ValueError] it raises on
    an invalid suffix or a path with an empty name. *)
Definition with_suffix (p : Path) (sfx : str) : option Path :=
  if contains sep sfx then None
  else if (negb (str_eqb sfx []) && negb (startswith dot sfx)
           || str_eqb sfx [dot])%bool then None
  else
    let name := name p in
    if str_eqb name [] then None
    else
      let old_suffix := suffix p in
      let name' :=
        if str_eqb old_suffix [] then name ++ sfx
        else firstn (List.length name - List.length old_suffix) name ++ sfx in
      Some (mkPath (anchor p) (removelast (comps p) ++ [name'])).

End Pathlib.
Import Pathlib.


(** ** Exceptions and results *)

Inductive errno :=
| ENOENT | EISDIR | ENOTDIR | EEXIST | ELOOP | EBADF | EACCES | ENAMETOOLONG.

(** The exceptions the pipeline can end in. [OSError] carries the error
    number; [SameFileError] is [shutil]'s. *)
Inductive exn :=
| DeviceNotFoundError (msg : str)
| BinaryFileNotFoundError (msg : str)
| IndexError
| ValueError
| SameFileError
| OSError (e : errno).

Inductive result (A : Type) :=
| Ok (a : A)
| Raise (e : exn).
Arguments Ok {A} a.
Arguments Raise {A} e.

(** ** Devices *)

(** Modelled from the spec: the classes [Board], [Device] and
    [ConnectedDevices] of [mbed_tools.devices] are imported by [flash.py] and
    are not part of it. A device carries a board-type identifier and a
    sequence of mount points; the listing is an ordered sequence of devices.
    Only the attributes [flash.py] reads are kept. *)
Record Board := mkBoard { board_type : str }.
Record Device := mkDevice { mbed_board : Board; mount_points : list Path }.
Record ConnectedDevices := mkConnected { identified_devices : list Device }.

(** ** The file system *)

Module OS.

(** What a path names: a regular file with its bytes, a directory, a
    symbolic link with its text, or a name the system refuses to look up
    (a name that is too long, a directory that may not be searched), with the
    error number every system call on it fails with. *)
Inductive node :=
| Reg (data : list Byte.byte)
| Dir
| Link (text : str)
| Unreachable (e : errno).

(** The store is keyed by whole paths and a lookup does not follow links
    ([lstat]). Only a link in the final position is resolved by the
    operations below; directory components are not walked. *)
Definition filesystem := Path -> option node.

Definition fs_set (f : filesystem) (p : Path) (n : node) : filesystem :=
  fun q => if path_eqb q p then Some n else f q.

Definition MAXSYMLINKS : nat := 40.

Inductive walk :=
| Loop
| At (p : Path) (n : option node).

(** Resolve links in the final position; a link text is read relative to the
    directory of the link. More than [fuel] links in a row is [ELOOP]. *)
Fixpoint follow (fuel : nat) (f : filesystem) (p : Path) : walk :=
  match f p with
  | Some (Link text) =>
      match fuel with
      | O => Loop
      | S k => follow k f (truediv (parent p) text)
      end
  | o => At p o
  end.

(** [os.stat]. *)
Definition stat (f : filesystem) (p : Path) : errno + node :=
  match follow MAXSYMLINKS f p with
  | Loop => inl ELOOP
  | At _ None => inl ENOENT
  | At _ (Some (Unreachable e)) => inl e
  | At _ (Some n) => inr n
  end.

(** [pathlib._ignore_error]: the error numbers [Path.exists] reads as
    "not there"; it raises [OSError] again on every other one. *)
Definition ignored (e : errno) : bool :=
  match e with
  | ENOENT | ENOTDIR | EBADF | ELOOP => true
  | _ => false
  end.

(** Whether [stat] succeeds on the path. *)
Definition path_exists (f : filesystem) (p : Path) : bool :=
  match stat f p with
  | inr _ => true
  | inl _ => false
  end.

(** [os.path.islink]. *)
Definition islink (f : filesystem) (p : Path) : bool :=
  match f p with
  | Some (Link _) => true
  | _ => false
  end.

(** [os.path.isdir]. *)
Definition isdir (f : filesystem) (p : Path) : bool :=
  match stat f p with
  | inr Dir => true
  | _ => false
  end.

(** [os.path.samefile], with [OSError] read as [False] as [shutil._samefile]
    does: both names resolve to the same existing entry. *)
Definition samefile (f : filesystem) (a b : Path) : bool :=
  match follow MAXSYMLINKS f a, follow MAXSYMLINKS f b with
  | At _ (Some (Unreachable _)), _ => false
  | _, At _ (Some (Unreachable _)) => false
  | At p (Some _), At q (Some _) => path_eqb p q
  | _, _ => false
  end.

(** [os.path.basename(str(p))]: what follows the last separator. *)
Definition basename (p : Path) : str := last (split sep (path_str p)) [].

(** [open(p, 'rb').read()]. *)
Definition read_bytes (f : filesystem) (p : Path) : errno + list Byte.byte :=
  match follow MAXSYMLINKS f p with
  | Loop => inl ELOOP
  | At _ None => inl ENOENT
  | At _ (Some Dir) => inl EISDIR
  | At _ (Some (Link _)) => inl ELOOP
  | At _ (Some (Unreachable e)) => inl e
  | At _ (Some (Reg data)) => inr data
  end.

(** In which directory a new entry [p] can be made. *)
Definition creatable (f : filesystem) (p : Path) : option errno :=
  match stat f (parent p) with
  | inr Dir => None
  | inr _ => Some ENOTDIR
  | inl e => Some e
  end.

(** [open(p, 'wb')]: the entry that is truncated or created. An existing
    link at [p] is followed. *)
Definition open_wb (f : filesystem) (p : Path) : errno + Path :=
  match follow MAXSYMLINKS f p with
  | Loop => inl ELOOP
  | At q (Some (Reg _)) => inr q
  | At _ (Some Dir) => inl EISDIR
  | At _ (Some (Link _)) => inl ELOOP
  | At _ (Some (Unreachable e)) => inl e
  | At q None =>
      match creatable f q with
      | None => inr q
      | Some e => inl e
      end
  end.

(** [os.symlink(text, dst)]: refuses an existing [dst], link or not. *)
Definition symlink (f : filesystem) (text : str) (dst : Path)
  : errno + filesystem :=
  match f dst with
  | Some (Unreachable e) => inl e
  | Some _ => inl EEXIST
  | None =>
      match creatable f dst with
      | None => inr (fs_set f dst (Link text))
      | Some e => inl e
      end
  end.

End OS.
Import OS.

(** ** shutil *)

Module Shutil.

(** [shutil.copyfile(src, dst, follow_symlinks=...)] as a function of the
    file system. A source that is a link is recreated as a link when
    [follow_symlinks] is false; otherwise the bytes read through [src] are
    written through [dst]. Named pipes are not in the model. *)
Definition copyfile (f : filesystem) (src dst : Path)
           (follow_symlinks : bool) : exn + filesystem :=
  if samefile f src dst then inl SameFileError
  else if negb follow_symlinks && islink f src then
    match f src with
    | Some (Link text) =>
        match symlink f text dst with
        | inr f' => inr f'
        | inl e => inl (OSError e)
        end
    | _ => inl (OSError ENOENT)
    end
  else
    match read_bytes f src with
    | inl e => inl (OSError e)
    | inr data =>
        match open_wb f dst with
        | inl e => inl (OSError e)
        | inr q => inr (fs_set f q (Reg data))
        end
    end.

(** The file [shutil.copy(src, dst)] writes: inside [dst] under the name of
    [src] when [dst] is a directory, [dst] itself otherwise. *)
Definition copy_target (f : filesystem) (src dst : Path) : Path :=
  if isdir f dst then truediv dst (basename src) else dst.

(** [shutil.copy(src, dst, follow_symlinks=...)]. [copymode], which comes
    after [copyfile], changes permission bits only; entries carry none. *)
Definition copy (f : filesystem) (src dst : Path) (follow_symlinks : bool)
  : exn + filesystem :=
  copyfile f src (copy_target f src dst) follow_symlinks.

End Shutil.

(** ** The world and computations in it *)

(** What lies outside the program: the listing the device enumeration returns
    at its n-th call and how many calls were made, the file system, the name
    [platform.system()] reports, and the canonical form [Path.resolve] gives
    to a path. *)
Record World := mkWorld {
  listings : nat -> ConnectedDevices;
  enum_count : nat;
  fs : filesystem;
  system : str;
  realpath : Path -> Path
}.

(** Calls that leave the program. *)
Inductive call :=
| CallGetConnectedDevices
| CallExists (p : Path)
| CallResolve (p : Path)
| CallCopy (src dst : Path)
| CallSync.

Record outcome (A : Type) := mkOutcome {
  res : result A;
  final : World;
  calls : list call
}.

Definition M (A : Type) := World -> outcome A.

Definition ret {A} (a : A) : M A := fun w => mkOutcome (Ok a) w [].

Definition raise {A} (e : exn) : M A := fun w => mkOutcome (Raise e) w [].

Definition bind {A B} (m : M A) (k : A -> M B) : M B :=
  fun w =>
    let o := m w in
    match res o with
    | Ok a =>
        let o' := k a (final o) in
        mkOutcome (res o') (final o') (calls o ++ calls o')
    | Raise e => mkOutcome (Raise e) (final o) (calls o)
    end.

Notation "x <- m ;; k" := (bind m (fun x => k))
  (at level 61, m at next level, right associativity).
Notation "m ;;; k" := (bind m (fun _ => k))
  (at level 61, right associativity).

Definition set_fs (w : World) (f : filesystem) : World :=
  mkWorld (listings w) (enum_count w) f (system w) (realpath w).

(** [get_connected_devices()]: a fresh query of the operating system. *)
Definition get_connected_devices : M ConnectedDevices :=
  fun w =>
    mkOutcome (Ok (listings w (enum_count w)))
              (mkWorld (listings w) (S (enum_count w)) (fs w) (system w)
                       (realpath w))
              [CallGetConnectedDevices].

(** [p.exists()]: [True] when [stat] succeeds, [False] when it fails with an
    ignored error number, and the [OSError] itself otherwise. *)
Definition exists_ (p : Path) : M bool :=
  fun w =>
    mkOutcome
      (match stat (fs w) p with
       | inr _ => Ok true
       | inl e => if ignored e then Ok false else Raise (OSError e)
       end)
      w [CallExists p].

(** [p.resolve()]. *)
Definition resolve (p : Path) : M Path :=
  fun w => mkOutcome (Ok (realpath w p)) w [CallResolve p].

(** [shutil.copy(src, dst, follow_symlinks=...)]. *)
Definition shutil_copy (src dst : Path) (follow_symlinks : bool) : M unit :=
  fun w =>
    match Shutil.copy (fs w) src dst follow_symlinks with
    | inr f' => mkOutcome (Ok tt) (set_fs w f') [CallCopy src dst]
    | inl e => mkOutcome (Raise e) w [CallCopy src dst]
    end.

(** [os.sync()]. *)
Definition os_sync : M unit := fun w => mkOutcome (Ok tt) w [CallSync].

(** [platform.system()]. *)
Definition platform_system : M str := fun w => mkOutcome (Ok (system w)) w [].

(** [seq[i]] on a tuple. *)
Definition getitem {A} (seq : list A) (i : nat) : M A :=
  match nth_error seq i with
  | Some x => ret x
  | None => raise IndexError
  end.

(** ** Sample boards, file systems and worlds *)

Module Demo.

Definition k64f : Device :=
  mkDevice (mkBoard (py "K64F"))
           [PosixPath "/media/DAPLINK"; PosixPath "/media/DAPLINK_ALT"].

Definition k64f_lower : Device :=
  mkDevice (mkBoard (py "k64f")) [PosixPath "/media/SECOND"].

Definition nucleo : Device :=
  mkDevice (mkBoard (py "NUCLEO_F401RE")) [PosixPath "/media/NODE_F401RE"].

(** A board that is identified but has no mounted storage. *)
Definition unmounted : Device := mkDevice (mkBoard (py "K64F")) [].

Definition image : list Byte.byte := [Byte.x4d; Byte.x42; Byte.x45; Byte.x44].

Definition fs_of (entries : list (string * node)) : filesystem :=
  fold_right (fun e f => fs_set f (PosixPath (fst e)) (snd e))
             (fun _ => None) entries.

Definition dirs : list (string * node) :=
  [("/", Dir); ("/build", Dir); ("/media", Dir); ("/media/DAPLINK", Dir);
   ("/media/DAPLINK_ALT", Dir); ("/tmp", Dir)]%string.

(** The image was built as a binary. *)
Definition fs_bin : filesystem :=
  fs_of (("/build/myapp.bin", Reg image) :: dirs)%string.

(** The image was built as a hex file. *)
Definition fs_hex : filesystem :=
  fs_of (("/build/myapp.hex", Reg image) :: dirs)%string.

(** Nothing was built. *)
Definition fs_empty : filesystem := fs_of dirs.

(** The artifact path is a link to the image next to it. *)
Definition fs_link_artifact : filesystem :=
  fs_of (("/build/myapp.bin", Link (py "real.bin"))
         :: ("/build/real.bin", Reg image) :: dirs)%string.

(** A link already sits where the image will be written. *)
Definition fs_link_on_disk : filesystem :=
  fs_of (("/build/myapp.bin", Reg image)
         :: ("/media/DAPLINK/myapp.bin", Link (py "/tmp/old.bin"))
         :: dirs)%string.

Definition world_of (devices : list Device) (f : filesystem) (sys : string)
  : World :=
  mkWorld (fun _ => mkConnected devices) 0 f (py sys) (fun p => p).

Definition linux : World := world_of [nucleo; k64f; k64f_lower] fs_bin "Linux".
Definition windows : World := world_of [nucleo; k64f] fs_bin "Windows".
Definition nothing_built : World := world_of [k64f] fs_empty "Linux".
Definition no_mount_nothing_built : World :=
  world_of [unmounted] fs_empty "Linux".
Definition no_mount : World := world_of [unmounted] fs_bin "Linux".
Definition link_artifact : World := world_of [k64f] fs_link_artifact "Linux".
Definition link_on_disk : World := world_of [k64f] fs_link_on_disk "Linux".

(** The board is plugged in between the first and the second query. *)
Definition plugged_later : World :=
  mkWorld (fun n => mkConnected (match n with O => [] | S _ => [k64f] end))
          0 fs_bin (py "Linux") (fun p => p).

(** A board whose storage is mounted on the build directory itself. *)
Definition k64f_on_build : Device :=
  mkDevice (mkBoard (py "K64F")) [PosixPath "/build"].

Definition in_place : World := world_of [k64f_on_build] fs_bin "Linux".

(** A board whose mount point is gone: nothing is at [/media/GONE]. *)
Definition k64f_gone : Device :=
  mkDevice (mkBoard (py "K64F")) [PosixPath "/media/GONE"].

Definition gone : World := world_of [k64f_gone] fs_bin "Linux".

(** The device already holds an older image under the same name. *)
Definition fs_reflash : filesystem :=
  fs_of (("/build/myapp.bin", Reg image)
         :: ("/media/DAPLINK/myapp.bin", Reg [Byte.x00])
         :: dirs)%string.

Definition reflash : World := world_of [k64f] fs_reflash "Linux".





End Demo.

(** ** flash.py *)

(** The Unicode upper-case mapping of one code point (one to three code
    points), which [str.upper] applies to each character in turn. It belongs
    to the interpreter, not to [flash.py]. *)
Class Unicode := { to_upper_full : N -> list N }.

(** The mapping of the interpreter. *)
Definition cpython_table : Unicode :=
  {| to_upper_full := unicode_upper_full |}.

(** A mapping that is the ASCII one below 128, as every version of the
    Unicode mapping is. *)
Definition ascii_faithful (U : Unicode) : Prop :=
  forall c, (c < 128)%N -> to_upper_full c = ascii_upper_full c.

(** A string of ASCII characters. *)
Definition is_ascii (s : str) : Prop := Forall (fun c => (c < 128)%N) s.

(** The board types of a listing are ASCII. *)
Definition ascii_listing (devices : list Device) : Prop :=
  Forall (fun x => is_ascii (board_type (mbed_board x))) devices.

Section Flash.

Context {U : Unicode}.

(** [s.upper()]. *)
Definition upper (s : str) : str := flat_map to_upper_full s.

Definition _flash_dev (disk image_path : Path) : M unit :=
  shutil_copy image_path disk false ;;;
  sys <- platform_system ;;
  if negb (str_eqb sys (py "Windows")) then os_sync else ret tt.

(** The [for] loop of [_find_connected_device]: the first device whose
    upper-cased board type equals the upper-cased target. *)
Fixpoint scan_devices (devices : list Device) (mbed_target : str)
  : option Device :=
  match devices with
  | [] => None
  | device :: rest =>
      if str_eqb (upper (board_type (mbed_board device))) (upper mbed_target)
      then Some device
      else scan_devices rest mbed_target
  end.

Definition _find_connected_device (mbed_target : str) : M Device :=
  connected_devices <- get_connected_devices ;;
  match scan_devices (identified_devices connected_devices) mbed_target with
  | Some device => ret device
  | None =>
      raise (DeviceNotFoundError
               (py "The target board you compiled for is not connected to your system."))
  end.

Definition _build_binary_file_path (program_path build_dir : Path)
           (hex_file : bool) : M Path :=
  let fw_fbase := truediv build_dir (name program_path) in
  match with_suffix fw_fbase (if hex_file then py ".hex" else py ".bin") with
  | None => raise ValueError
  | Some fw_file =>
      found <- exists_ fw_file ;;
      if negb found then
        raise (BinaryFileNotFoundError
                 (py "Build program file (firmware) not found "
                     ++ path_str fw_file))
      else ret fw_file
  end.

Definition flash_binary (program_path build_dir : Path) (mbed_target : str)
           (hex_file : bool) : M unit :=
  device <- _find_connected_device mbed_target ;;
  fw_file <- _build_binary_file_path program_path build_dir hex_file ;;
  mount_point <- getitem (mount_points device) 0 ;;
  disk <- resolve mount_point ;;
  _flash_dev disk fw_file.

(** Lines 84 and 85 of [flash_binary]: what it does once the device is
    resolved. *)
Definition flash_resolved (device : Device) (program_path build_dir : Path)
           (hex_file : bool) : M unit :=
  fw_file <- _build_binary_file_path program_path build_dir hex_file ;;
  mount_point <- getitem (mount_points device) 0 ;;
  disk <- resolve mount_point ;;
  _flash_dev disk fw_file.

(** A run that comes after one enumeration. *)
Definition after_enumeration {A} (r : outcome A) : outcome A :=
  mkOutcome (res r) (final r) (CallGetConnectedDevices :: calls r).


(** The listing the next enumeration returns. *)
Definition current_listing (w : World) : list Device :=
  identified_devices (listings w (enum_count w)).

(** Case-insensitive equality of two identifiers: equality after the
    upper-case normalisation. *)
Definition caseless_eq (a b : str) : Prop := upper a = upper b.

Definition matches (mbed_target : str) (device : Device) : Prop :=
  caseless_eq (board_type (mbed_board device)) mbed_target.

Definition not_connected_msg : str :=
  py "The target board you compiled for is not connected to your system.".

Definition not_found_msg (fw_file : Path) : str :=
  py "Build program file (firmware) not found " ++ path_str fw_file.

(** What [_build_binary_file_path] raises when its candidate is not found to
    exist: the [OSError] of a [stat] that [Path.exists] does not ignore, and
    [BinaryFileNotFoundError] otherwise. *)
Definition probe_error (f : filesystem) (fw_file : Path) : exn :=
  match stat f fw_file with
  | inl e =>
      if ignored e then BinaryFileNotFoundError (not_found_msg fw_file)
      else OSError e
  | inr _ => BinaryFileNotFoundError (not_found_msg fw_file)
  end.

(** The candidate path of [_build_binary_file_path]. *)
Definition candidate (program_path build_dir : Path) (hex_file : bool)
  : option Path :=
  with_suffix (truediv build_dir (name program_path))
              (if hex_file then py ".hex" else py ".bin").

(** The world after one enumeration. *)
Definition enumerated (w : World) : World :=
  mkWorld (listings w) (S (enum_count w)) (fs w) (system w) (realpath w).

(** The [os.sync] calls a completed copy is followed by. *)
Definition sync_calls (w : World) : list call :=
  if str_eqb (system w) (py "Windows") then [] else [CallSync].

Definition is_enumeration (c : call) : bool :=
  match c with CallGetConnectedDevices => true | _ => false end.

Definition is_sync (c : call) : bool :=
  match c with CallSync => true | _ => false end.

Definition is_copy (c : call) : bool :=
  match c with CallCopy _ _ => true | _ => false end.

(** How many calls of a kind a run made. *)
Definition count (kind : call -> bool) (cs : list call) : nat :=
  List.length (filter kind cs).

(** What a lookup in a given listing answers. *)
Definition lookup_in (devices : list Device) (target : str) : result Device :=
  match scan_devices devices target with
  | Some d => Ok d
  | None => Raise (DeviceNotFoundError not_connected_msg)
  end.

(** The extension [_build_binary_file_path] asks for. *)
Definition extension (hex_file : bool) : str :=
  if hex_file then py ".hex" else py ".bin".

(** A path component as parsing leaves it: not empty, not ["."], without a
    separator. *)
Definition clean (component : str) : Prop :=
  component <> [] /\ component <> [dot] /\ ~ In sep component.

End Flash.

(** ** Sample invocations *)

Module Run.

(** The sample invocation: project [myapp], build directory [/build]. *)
Definition flash (target : string) (hex_file : bool) (w : World)
  : outcome unit :=
  flash_binary (U := cpython_table) (PosixPath "myapp") (PosixPath "/build")
               (py target) hex_file w.

Definition find (target : string) (w : World) : outcome Device :=
  _find_connected_device (U := cpython_table) (py target) w.

Definition locate (hex_file : bool) (w : World) : outcome Path :=
  _build_binary_file_path (PosixPath "myapp") (PosixPath "/build")
                          hex_file w.

End Run.

(** ** Properties *)

Section Properties.

Context {U : Unicode}.

(** *** Upper case on ASCII *)

Lemma ascii_fold_same_letters (a b : str) :
  flat_map ascii_upper_full a = flat_map ascii_upper_full b
  <-> same_letters a b = true.
Proof.
  revert b.
  induction a as [|x a IH]; intros [|y b]; cbn [flat_map same_letters].
  - tauto.
  - unfold ascii_upper_full at 1.
    destruct (_ && _)%bool; split; discriminate.
  - unfold ascii_upper_full at 1.
    destruct (_ && _)%bool; split; discriminate.
  - rewrite andb_true_iff, <- IH.
    assert (Hc : ascii_upper_full x = ascii_upper_full y
                 <-> same_letter x y = true).
    { unfold ascii_upper_full, same_letter.
      destruct (N.leb_spec 97 x), (N.leb_spec x 122),
               (N.leb_spec 97 y), (N.leb_spec y 122); cbn [andb orb];
        rewrite ?orb_false_r, ?orb_true_iff, ?N.eqb_eq;
        (split; [intros [= Heq] | intros Heq; f_equal]); lia. }
    rewrite <- Hc. unfold ascii_upper_full.
    destruct (N.leb 97 x && N.leb x 122)%bool,
             (N.leb 97 y && N.leb y 122)%bool; cbn [app];
      (split; [intros [= H1 H2] | intros [[= H1] H2]]);
      (split || f_equal); congruence.
Qed.

Lemma upper_on_ascii (s : str) :
  ascii_faithful U -> is_ascii s -> upper s = flat_map ascii_upper_full s.
Proof.
  intros HU Hs. unfold upper. induction Hs as [|c s Hc Hs IH]; [reflexivity|].
  cbn [flat_map]. now rewrite IH, (HU c Hc).
Qed.

Lemma caseless_on_ascii (a b : str) :
  ascii_faithful U -> is_ascii a -> is_ascii b ->
  (caseless_eq a b <-> same_letters a b = true).
Proof.
  intros HU Ha Hb. unfold caseless_eq.
  rewrite !upper_on_ascii by assumption. apply ascii_fold_same_letters.
Qed.

(** *** Running the three helpers *)

Lemma str_eqb_eq (a b : str) : str_eqb a b = true <-> a = b.
Proof.
  unfold str_eqb. destruct (str_eq_dec a b); split; congruence.
Qed.

Lemma str_eqb_neq (a b : str) : str_eqb a b = false <-> a <> b.
Proof.
  unfold str_eqb. destruct (str_eq_dec a b); split; congruence.
Qed.

Lemma scan_devices_some devices target d :
  scan_devices devices target = Some d ->
  exists before after,
    devices = before ++ d :: after
    /\ (forall x, In x before -> ~ matches target x)
    /\ matches target d.
Proof.
  induction devices as [|x rest IH]; simpl; [discriminate|].
  destruct (str_eqb _ _) eqn:E.
  - intros [= <-]. exists [], rest. repeat split.
    + intros ? [].
    + now apply str_eqb_eq.
  - intros H. destruct (IH H) as (before & after & -> & Hb & Hd).
    exists (x :: before), after. repeat split; trivial.
    intros y [<-|Hy]; [now apply str_eqb_neq | now apply Hb].
Qed.

Lemma scan_devices_none devices target :
  scan_devices devices target = None <->
  (forall x, In x devices -> ~ matches target x).
Proof.
  induction devices as [|x rest IH]; simpl.
  - split; [intros _ ? [] | reflexivity].
  - destruct (str_eqb _ _) eqn:E.
    + split; [discriminate|]. intros H. exfalso.
      apply (H x); [now left | now apply str_eqb_eq].
    + rewrite IH. split.
      * intros H y [<-|Hy]; [now apply str_eqb_neq | now apply H].
      * intros H y Hy. apply H. now right.
Qed.

Lemma find_run target w :
  _find_connected_device target w =
  mkOutcome
    (match scan_devices (current_listing w) target with
     | Some d => Ok d
     | None => Raise (DeviceNotFoundError not_connected_msg)
     end)
    (enumerated w) [CallGetConnectedDevices].
Proof.
  unfold _find_connected_device, bind, get_connected_devices, current_listing.
  simpl. destruct (scan_devices _ _); reflexivity.
Qed.

Lemma build_run program_path build_dir hex_file w :
  _build_binary_file_path program_path build_dir hex_file w =
  match candidate program_path build_dir hex_file with
  | None => mkOutcome (Raise ValueError) w []
  | Some fw_file =>
      mkOutcome
        (if path_exists (fs w) fw_file then Ok fw_file
         else Raise (probe_error (fs w) fw_file))
        w [CallExists fw_file]
  end.
Proof.
  unfold _build_binary_file_path, candidate.
  destruct (with_suffix _ _) as [fw|]; [|reflexivity].
  unfold bind, exists_, path_exists, probe_error. cbn [res final calls].
  destruct (stat (fs w) fw) as [e|n]; [|reflexivity].
  destruct (ignored e); reflexivity.
Qed.

Lemma flash_dev_run disk image_path w :
  _flash_dev disk image_path w =
  match Shutil.copy (fs w) image_path disk false with
  | inl e => mkOutcome (Raise e) w [CallCopy image_path disk]
  | inr f' =>
      mkOutcome (Ok tt) (set_fs w f')
                (CallCopy image_path disk :: sync_calls w)
  end.
Proof.
  unfold _flash_dev, bind, shutil_copy, platform_system, sync_calls.
  destruct (Shutil.copy _ _ _ _) as [e|f']; simpl; [reflexivity|].
  destruct (str_eqb (system w) (py "Windows")); reflexivity.
Qed.

(** Every way [flash_binary] can run, read off the world it starts in. *)
Lemma flash_binary_run program_path build_dir target hex_file w :
  flash_binary program_path build_dir target hex_file w =
  match scan_devices (current_listing w) target with
  | None =>
      mkOutcome (Raise (DeviceNotFoundError not_connected_msg))
                (enumerated w) [CallGetConnectedDevices]
  | Some device =>
      match candidate program_path build_dir hex_file with
      | None =>
          mkOutcome (Raise ValueError) (enumerated w)
                    [CallGetConnectedDevices]
      | Some fw_file =>
          if path_exists (fs w) fw_file then
            match mount_points device with
            | [] =>
                mkOutcome (Raise IndexError) (enumerated w)
                          [CallGetConnectedDevices; CallExists fw_file]
            | mp :: _ =>
                match Shutil.copy (fs w) fw_file (realpath w mp) false with
                | inl e =>
                    mkOutcome (Raise e) (enumerated w)
                              [CallGetConnectedDevices; CallExists fw_file;
                               CallResolve mp;
                               CallCopy fw_file (realpath w mp)]
                | inr f' =>
                    mkOutcome (Ok tt) (set_fs (enumerated w) f')
                              ([CallGetConnectedDevices; CallExists fw_file;
                                CallResolve mp;
                                CallCopy fw_file (realpath w mp)]
                                 ++ sync_calls w)
                end
            end
          else
            mkOutcome
              (Raise (probe_error (fs w) fw_file))
              (enumerated w)
              [CallGetConnectedDevices; CallExists fw_file]
      end
  end.
Proof.
  unfold flash_binary, bind. rewrite find_run. cbn [res final calls].
  destruct (scan_devices _ _) as [device|]; [|reflexivity].
  cbn [res final calls]. rewrite build_run.
  destruct (candidate _ _ _) as [fw|]; [|reflexivity].
  cbn [res final calls enumerated fs].
  destruct (path_exists (fs w) fw); [|reflexivity].
  unfold getitem. destruct (mount_points device) as [|mp rest];
    [reflexivity|].
  cbn [nth_error ret resolve res final calls realpath enumerated].
  rewrite flash_dev_run. cbn [fs].
  destruct (Shutil.copy _ _ _ _); reflexivity.
Qed.

(** *** Device resolution *)

Lemma find_first_match target w :
  (exists d, In d (current_listing w) /\ matches target d) ->
  exists before d after,
    current_listing w = before ++ d :: after
    /\ (forall x, In x before -> ~ matches target x)
    /\ matches target d
    /\ caseless_eq target (board_type (mbed_board d))
    /\ res (_find_connected_device target w) = Ok d.
Proof.
  intros (d0 & Hin & Hm). rewrite find_run. cbn [res].
  destruct (scan_devices (current_listing w) target) as [d|] eqn:E.
  - destruct (scan_devices_some _ _ E) as (before & after & Hl & Hb & Hd).
    exists before, d, after. repeat split; trivial.
    symmetry. exact Hd.
  - exfalso. exact (proj1 (scan_devices_none _ _) E d0 Hin Hm).
Qed.

Lemma matches_on_ascii devices target x :
  ascii_faithful U -> is_ascii target -> ascii_listing devices ->
  In x devices ->
  (matches target x <-> same_letters (board_type (mbed_board x)) target = true).
Proof.
  intros HU Ht Hl Hx. apply caseless_on_ascii; trivial.
  exact (proj1 (Forall_forall _ _) Hl x Hx).
Qed.

(** C1. Whenever some device of the listing has a board type equal to the
    target up to case, [_find_connected_device] returns a device of the
    listing that is equal to the target up to case and that no such device
    precedes: the first match in listing order. Equality up to case is
    equality after the upper-case normalisation of Unicode; for ASCII
    identifiers it is equality letter by letter up to the case of the
    letters, in both directions, and the theorem is stated with it as
    well. *)
Theorem C1_find_returns_first_match (target : str) (w : World) :
  ascii_faithful U ->
  ((exists d, In d (current_listing w) /\ matches target d) ->
   exists before d after,
     current_listing w = before ++ d :: after
     /\ (forall x, In x before -> ~ matches target x)
     /\ matches target d
     /\ caseless_eq target (board_type (mbed_board d))
     /\ res (_find_connected_device target w) = Ok d)
  /\ (is_ascii target -> ascii_listing (current_listing w) ->
      (exists d, In d (current_listing w)
                 /\ same_letters (board_type (mbed_board d)) target = true) ->
      exists before d after,
        current_listing w = before ++ d :: after
        /\ (forall x, In x before ->
                      same_letters (board_type (mbed_board x)) target = false)
        /\ same_letters (board_type (mbed_board d)) target = true
        /\ same_letters target (board_type (mbed_board d)) = true
        /\ res (_find_connected_device target w) = Ok d).
Proof.
  intros HU. split; [apply find_first_match|].
  intros Ht Hl (d0 & Hin & Hs).
  destruct (@find_first_match target w) as (before & d & after & E & Hb & Hd
                                           & Hd' & Hres).
  { exists d0. split; [exact Hin|].
    now apply (@matches_on_ascii _ _ _ HU Ht Hl Hin). }
  assert (Hind : In d (current_listing w)) by (rewrite E; apply in_elt).
  exists before, d, after.
  split; [exact E|split; [|split; [|split; [|exact Hres]]]].
  - intros x Hx.
    assert (Hinx : In x (current_listing w))
      by (rewrite E; apply in_or_app; now left).
    destruct (same_letters (board_type (mbed_board x)) target) eqn:Es;
      [|reflexivity].
    exfalso. apply (Hb x Hx). now apply (@matches_on_ascii _ _ _ HU Ht Hl Hinx).
  - now apply (@matches_on_ascii _ _ _ HU Ht Hl Hind).
  - apply caseless_on_ascii; trivial.
    exact (proj1 (Forall_forall _ _) Hl d Hind).
Qed.

(** C5. [_find_connected_device] raises [DeviceNotFoundError] exactly when
    no device of the listing is equal to the target up to case: after the
    upper-case normalisation in general, letter by letter up to the case of
    the letters for ASCII identifiers. It raises nothing else, it asks for
    the listing once whatever the answer (it does not try again), and
    [flash_binary] ends in the very exception it raised. *)
Theorem C5_device_not_found_iff_no_match (target : str) (w : World) :
  ascii_faithful U ->
  let o := _find_connected_device target w in
  (res o = Raise (DeviceNotFoundError not_connected_msg)
   <-> (forall d, In d (current_listing w) -> ~ matches target d))
  /\ (is_ascii target -> ascii_listing (current_listing w) ->
      (res o = Raise (DeviceNotFoundError not_connected_msg)
       <-> (forall d, In d (current_listing w) ->
                      same_letters (board_type (mbed_board d)) target
                      = false)))
  /\ (forall e, res o = Raise e -> e = DeviceNotFoundError not_connected_msg)
  /\ calls o = [CallGetConnectedDevices]
  /\ (forall program_path build_dir hex_file e,
         res o = Raise e ->
         res (flash_binary program_path build_dir target hex_file w)
         = Raise e).
Proof.
  intros HU. cbn zeta.
  assert (Hiff : res (_find_connected_device target w)
                 = Raise (DeviceNotFoundError not_connected_msg)
                 <-> (forall d, In d (current_listing w)
                                -> ~ matches target d)).
  { rewrite find_run. cbn [res]. rewrite <- scan_devices_none.
    destruct (scan_devices (current_listing w) target);
      split; congruence. }
  split; [exact Hiff|split].
  - intros Ht Hl. rewrite Hiff. split; intros H d Hin.
    + destruct (same_letters (board_type (mbed_board d)) target) eqn:Es;
        [|reflexivity].
      exfalso. apply (H d Hin). now apply (@matches_on_ascii _ _ _ HU Ht Hl Hin).
    + intros Hm. apply (@matches_on_ascii _ _ _ HU Ht Hl Hin) in Hm.
      rewrite (H d Hin) in Hm. discriminate.
  - rewrite find_run. cbn [res calls].
    destruct (scan_devices (current_listing w) target) as [d|] eqn:E.
    + split; [discriminate|split; [reflexivity|discriminate]].
    + split; [now intros e [= <-]|split; [reflexivity|]].
      intros pp bd hex e [= <-]. rewrite flash_binary_run, E. reflexivity.
Qed.

Lemma copy_error_kinds f src dst follow_symlinks e :
  Shutil.copy f src dst follow_symlinks = inl e ->
  e = SameFileError \/ exists n, e = OSError n.
Proof.
  unfold Shutil.copy, Shutil.copyfile.
  destruct (samefile _ _ _); [intros [= <-]; now left|].
  destruct (negb follow_symlinks && islink f src)%bool.
  - destruct (f src) as [[data| |text|err]|];
      try (intros [= <-]; right; eauto).
    destruct (symlink _ _ _); [intros [= <-]; right; eauto | discriminate].
  - destruct (read_bytes f src); [intros [= <-]; right; eauto|].
    destruct (open_wb _ _); [intros [= <-]; right; eauto | discriminate].
Qed.

Lemma flash_binary_resolved program_path build_dir target hex_file w :
  flash_binary program_path build_dir target hex_file w
  = match lookup_in (current_listing w) target with
    | Raise e => mkOutcome (Raise e) (enumerated w) [CallGetConnectedDevices]
    | Ok device =>
        after_enumeration
          (flash_resolved device program_path build_dir hex_file
                          (enumerated w))
    end.
Proof.
  unfold flash_binary. unfold bind at 1. rewrite find_run.
  cbn [res final calls]. unfold lookup_in.
  destruct (scan_devices (current_listing w) target); reflexivity.
Qed.

Lemma flash_binary_enumerates_once program_path build_dir target hex_file w :
  let o := flash_binary program_path build_dir target hex_file w in
  count is_enumeration (calls o) = 1
  /\ enum_count (final o) = S (enum_count w)
  /\ listings (final o) = listings w.
Proof.
  cbn zeta. rewrite flash_binary_run.
  destruct (scan_devices _ _); [|now repeat split].
  destruct (candidate _ _ _); [|now repeat split].
  destruct (path_exists _ _); [|now repeat split].
  destruct (mount_points _); [now repeat split|].
  destruct (Shutil.copy _ _ _ _); [now repeat split|].
  unfold sync_calls. destruct (str_eqb _ _); now repeat split.
Qed.

(** C9. One run of [flash_binary] asks the enumeration for the connected
    devices exactly once, whatever the outcome, and the whole run is decided
    by the listing that call returned: it ends in [DeviceNotFoundError]
    exactly when no device of that listing matches, and otherwise it is the
    rest of the pipeline run on the first matching device of that listing.
    Nothing of the listing is kept: a run started afterwards is decided in
    the same way by the next listing of the enumeration. *)
Theorem C9_one_fresh_enumeration_per_call
        (program_path build_dir : Path) (target : str) (hex_file : bool)
        (w : World) :
  let o := flash_binary program_path build_dir target hex_file w in
  let snapshot := identified_devices (listings w (enum_count w)) in
  let next := identified_devices (listings w (S (enum_count w))) in
  count is_enumeration (calls o) = 1
  /\ enum_count (final o) = S (enum_count w)
  /\ listings (final o) = listings w
  /\ (res o = Raise (DeviceNotFoundError not_connected_msg)
      <-> (forall d, In d snapshot -> ~ matches target d))
  /\ o = match lookup_in snapshot target with
         | Raise e =>
             mkOutcome (Raise e) (enumerated w) [CallGetConnectedDevices]
         | Ok device =>
             after_enumeration
               (flash_resolved device program_path build_dir hex_file
                               (enumerated w))
         end
  /\ (forall program_path' build_dir' target' hex_file',
         let o' := flash_binary program_path' build_dir' target' hex_file'
                                (final o) in
         (res o' = Raise (DeviceNotFoundError not_connected_msg)
          <-> (forall d, In d next -> ~ matches target' d))
         /\ o' = match lookup_in next target' with
                 | Raise e =>
                     mkOutcome (Raise e) (enumerated (final o))
                               [CallGetConnectedDevices]
                 | Ok device =>
                     after_enumeration
                       (flash_resolved device program_path' build_dir'
                                       hex_file' (enumerated (final o)))
                 end).
Proof.
  cbn zeta.
  assert (Hnf : forall pp bd t hex v,
             res (flash_binary pp bd t hex v)
             = Raise (DeviceNotFoundError not_connected_msg)
             <-> (forall d, In d (current_listing v) -> ~ matches t d)).
  { intros pp bd t hex v. rewrite <- scan_devices_none, flash_binary_run.
    destruct (scan_devices _ _); [|tauto].
    destruct (candidate _ _ _); [|split; discriminate].
    destruct (path_exists _ _) eqn:He.
    - destruct (mount_points _); [split; discriminate|].
      destruct (Shutil.copy _ _ _ _) as [e|f'] eqn:Hc;
        [|split; discriminate].
      destruct (copy_error_kinds _ _ _ _ Hc) as [->|[n ->]];
        split; discriminate.
    - cbn [res]. unfold probe_error.
      destruct (stat _ _) as [e|n]; [destruct (ignored e)|];
        split; discriminate. }
  destruct (flash_binary_enumerates_once program_path build_dir target
                                         hex_file w) as (Hn & Hc & Hl).
  split; [exact Hn|split; [exact Hc|split; [exact Hl|split; [|split]]]].
  - apply Hnf.
  - apply flash_binary_resolved.
  - intros pp' bd' t' hex'.
    assert (E : current_listing
                  (final (flash_binary program_path build_dir target
                                       hex_file w))
                = identified_devices (listings w (S (enum_count w))))
      by (unfold current_listing; now rewrite Hc, Hl).
    split.
    + rewrite Hnf, E. tauto.
    + rewrite flash_binary_resolved, E. reflexivity.
Qed.

(** *** Artifact location *)

Lemma rfind_from_app c a b i acc :
  rfind_from c (a ++ b) i acc
  = rfind_from c b (i + Z.of_nat (List.length a)) (rfind_from c a i acc).
Proof.
  revert i acc. induction a as [|x a IH]; intros i acc; simpl List.length.
  - simpl. f_equal. lia.
  - cbn [app rfind_from]. rewrite IH. f_equal. lia.
Qed.

Lemma rfind_from_absent c s i acc :
  ~ In c s -> rfind_from c s i acc = acc.
Proof.
  revert i acc. induction s as [|x s IH]; intros i acc H; simpl; trivial.
  destruct (N.eqb_spec x c) as [->|_].
  - exfalso. apply H. now left.
  - apply IH. intros Hc. apply H. now right.
Qed.

Lemma rfind_last c stem ext :
  ~ In c ext -> rfind c (stem ++ c :: ext) = Z.of_nat (List.length stem).
Proof.
  intros H. unfold rfind. rewrite rfind_from_app. cbn [rfind_from].
  rewrite N.eqb_refl. now rewrite rfind_from_absent.
Qed.

Lemma suffix_of_name p stem ext :
  name p = stem ++ dot :: ext -> stem <> [] -> ext <> [] -> ~ In dot ext ->
  suffix p = dot :: ext.
Proof.
  intros Hn Hs He Hd. unfold suffix. rewrite Hn, rfind_last by exact Hd.
  assert (0 < List.length stem)%nat
    by (destruct stem; [congruence | simpl; lia]).
  assert (0 < List.length ext)%nat
    by (destruct ext; [congruence | simpl; lia]).
  rewrite length_app. cbn [List.length].
  replace (0 <? Z.of_nat (List.length stem))%Z with true
    by (symmetry; apply Z.ltb_lt; lia).
  replace (Z.of_nat (List.length stem)
           <? Z.of_nat (List.length stem + S (List.length ext)) - 1)%Z
    with true by (symmetry; apply Z.ltb_lt; lia).
  cbn [andb]. rewrite Nat2Z.id, skipn_app, skipn_all, Nat.sub_diag.
  reflexivity.
Qed.

Lemma with_suffix_shape p sfx q :
  with_suffix p sfx = Some q ->
  exists stem,
    stem <> []
    /\ anchor q = anchor p
    /\ comps q = removelast (comps p) ++ [stem ++ sfx].
Proof.
  unfold with_suffix. destruct (contains sep sfx); [discriminate|].
  destruct (_ || _)%bool; [discriminate|].
  destruct (str_eqb (name p) []) eqn:En; [discriminate|].
  apply str_eqb_neq in En.
  destruct (str_eqb (suffix p) []) eqn:Es; intros [= <-]; cbn [anchor comps].
  - exists (name p). now repeat split.
  - eexists. split; [|split; reflexivity].
    apply str_eqb_neq in Es. revert Es. unfold suffix.
    set (i := rfind dot (name p)).
    destruct (0 <? i)%Z eqn:E0; [|now intros []].
    destruct (i <? Z.of_nat (List.length (name p)) - 1)%Z eqn:E1;
      [|now intros []].
    cbn [andb]. intros _ Hnil.
    apply Z.ltb_lt in E0, E1.
    apply (f_equal (@List.length N)) in Hnil.
    rewrite length_firstn, length_skipn in Hnil. simpl in Hnil. lia.
Qed.

Lemma with_suffix_name p sfx q stem :
  comps q = removelast (comps p) ++ [stem ++ sfx] -> name q = stem ++ sfx.
Proof.
  intros H. unfold name. rewrite H. apply last_last.
Qed.

Lemma candidate_suffix program_path build_dir hex_file fw_file :
  candidate program_path build_dir hex_file = Some fw_file ->
  suffix fw_file = extension hex_file.
Proof.
  intros H. apply with_suffix_shape in H. destruct H as (stem & Hs & _ & Hc).
  apply with_suffix_name in Hc.
  destruct hex_file; cbn in Hc |- *;
    apply (suffix_of_name _ Hc Hs); try discriminate;
    cbv; intuition discriminate.
Qed.

Lemma split_without_sep c s : ~ In c s -> split c s = [s].
Proof.
  induction s as [|x s IH]; intros H; simpl; trivial.
  destruct (N.eqb_spec x c) as [->|_].
  - exfalso. apply H. now left.
  - rewrite IH; [reflexivity|]. intros Hc. apply H. now right.
Qed.

Lemma parse_parts_clean component :
  clean component -> parse_parts component = mkPath [] [component].
Proof.
  intros (Hne & Hnd & Hns). unfold parse_parts, splitroot.
  assert (startswith sep component = false) as ->.
  { destruct component as [|x s]; simpl; trivial.
    destruct (N.eqb_spec x sep) as [->|_]; trivial.
    exfalso. apply Hns. now left. }
  rewrite split_without_sep by exact Hns. cbn [filter].
  apply str_eqb_neq in Hne, Hnd. now rewrite Hne, Hnd.
Qed.

Lemma candidate_parent program_path build_dir hex_file fw_file :
  clean (name program_path) ->
  candidate program_path build_dir hex_file = Some fw_file ->
  parent fw_file = build_dir.
Proof.
  intros Hc H. unfold candidate, truediv in H.
  rewrite (parse_parts_clean Hc) in H. unfold join_parsed_parts in H.
  cbn [anchor comps] in H.
  apply with_suffix_shape in H. destruct H as (stem & _ & Ha & Hq).
  cbn [anchor comps] in Ha, Hq. rewrite removelast_last in Hq.
  unfold parent. rewrite Ha, Hq, removelast_last.
  now destruct build_dir.
Qed.

(** C2. The candidate of [_build_binary_file_path] is
    [build_dir / program_path.name] with the suffix [".hex"] when [hex_file]
    is set and [".bin"] otherwise. When that path exists, the function
    returns exactly it, after probing it and nothing else and without
    changing the world. The returned path carries the selected extension,
    and it lies in [build_dir] when the project path has a name. *)
Theorem C2_build_path_returns_existing_candidate
        (program_path build_dir : Path) (hex_file : bool) (w : World)
        (fw_file : Path) :
  with_suffix (truediv build_dir (name program_path))
              (if hex_file then py ".hex" else py ".bin") = Some fw_file ->
  path_exists (fs w) fw_file = true ->
  let o := _build_binary_file_path program_path build_dir hex_file w in
  res o = Ok fw_file
  /\ final o = w
  /\ calls o = [CallExists fw_file]
  /\ suffix fw_file = (if hex_file then py ".hex" else py ".bin")
  /\ (clean (name program_path) -> parent fw_file = build_dir).
Proof.
  intros Hc He. cbn zeta. rewrite build_run.
  change (candidate program_path build_dir hex_file = Some fw_file) in Hc.
  rewrite Hc, He. cbn [res final calls].
  split; [reflexivity|split; [reflexivity|split; [reflexivity|split]]].
  - eapply candidate_suffix; eassumption.
  - intros Hn. eapply candidate_parent; eassumption.
Qed.


(** *** The pipeline *)

Lemma sync_calls_no_copy w : filter is_copy (sync_calls w) = [].
Proof. unfold sync_calls. now destruct (str_eqb _ _). Qed.

(** C3. When device resolution fails, [flash_binary] is over with it: it
    ends in the same exception, in the same world and after the same calls
    as the resolution alone, so the artifact is not looked for and nothing
    is copied. When the resolution succeeds and artifact location fails,
    [flash_binary] ends in that exception too. In both cases the file
    system is as it was and no copy and no sync was called. *)
Theorem C3_failed_lookup_aborts_before_copy
        (program_path build_dir : Path) (target : str) (hex_file : bool)
        (w : World) (e : exn) :
  res (_find_connected_device target w) = Raise e
  \/ (exists device,
         res (_find_connected_device target w) = Ok device
         /\ res (_build_binary_file_path
                   program_path build_dir hex_file
                   (final (_find_connected_device target w))) = Raise e) ->
  let o := flash_binary program_path build_dir target hex_file w in
  res o = Raise e
  /\ fs (final o) = fs w
  /\ count is_copy (calls o) = 0
  /\ count is_sync (calls o) = 0
  /\ (res (_find_connected_device target w) = Raise e ->
      o = mkOutcome (Raise e)
                    (final (_find_connected_device target w))
                    (calls (_find_connected_device target w))).
Proof.
  cbn zeta. rewrite flash_binary_run, find_run. cbn [res final calls].
  rewrite build_run. cbn [fs enumerated].
  destruct (scan_devices _ _) as [device|].
  - intros [H|(d & _ & H)]; [discriminate|].
    destruct (candidate _ _ _) as [fw|]; cbn [res] in H |- *.
    + destruct (path_exists (fs w) fw); [discriminate|].
      injection H as <-. now repeat split.
    + injection H as <-. now repeat split.
  - intros [H|(d & H & _)]; [|discriminate].
    injection H as <-. now repeat split.
Qed.

(** C7. A run of [flash_binary] that succeeds on a system other than
    Windows ends with the copy followed by one [os.sync]: the sync is the
    last call, the completed copy is the call before it, and no sync or
    copy comes earlier. On Windows no run calls [os.sync], and a
    successful run ends with the copy. *)
Theorem C7_sync_after_copy_unless_windows
        (program_path build_dir : Path) (target : str) (hex_file : bool)
        (w : World) :
  let o := flash_binary program_path build_dir target hex_file w in
  (res o = Ok tt ->
   exists pre src dst,
     Shutil.copy (fs w) src dst false = inr (fs (final o))
     /\ count is_sync pre = 0
     /\ count is_copy pre = 0
     /\ (system w <> py "Windows" ->
         calls o = pre ++ [CallCopy src dst; CallSync])
     /\ (system w = py "Windows" -> calls o = pre ++ [CallCopy src dst]))
  /\ (system w = py "Windows" -> count is_sync (calls o) = 0).
Proof.
  cbn zeta. rewrite flash_binary_run. unfold sync_calls.
  destruct (scan_devices _ _) as [device|];
    [|split; [discriminate | reflexivity]].
  destruct (candidate _ _ _) as [fw|];
    [|split; [discriminate | reflexivity]].
  destruct (path_exists _ _); [|split; [discriminate | reflexivity]].
  destruct (mount_points device) as [|mp rest];
    [split; [discriminate | reflexivity]|].
  destruct (Shutil.copy _ _ _ _) as [e|f'] eqn:Hcopy;
    [split; [discriminate | reflexivity]|].
  cbn [res final calls]. split.
  - intros _.
    exists [CallGetConnectedDevices; CallExists fw; CallResolve mp],
           fw, (realpath w mp).
    split; [exact Hcopy|split; [reflexivity|split; [reflexivity|]]].
    destruct (str_eqb (system w) (py "Windows")) eqn:E; split; intros H.
    + apply str_eqb_eq in E. contradiction.
    + reflexivity.
    + reflexivity.
    + apply str_eqb_neq in E. contradiction.
  - intros H. apply str_eqb_eq in H. now rewrite H.
Qed.

(** C8. Once the device is resolved and the artifact located, a device with
    at least one mount point gets exactly one copy call, and its
    destination is the first mount point of the device, in the canonical
    form [resolve()] gives it, whatever other mount points follow. On
    success the file system is the one that copy leaves. *)
Theorem C8_copy_goes_to_first_mount_point
        (program_path build_dir : Path) (target : str) (hex_file : bool)
        (w : World) (device : Device) (fw_file mp : Path)
        (rest : list Path) :
  res (_find_connected_device target w) = Ok device ->
  res (_build_binary_file_path program_path build_dir hex_file
                               (final (_find_connected_device target w)))
  = Ok fw_file ->
  mount_points device = mp :: rest ->
  let o := flash_binary program_path build_dir target hex_file w in
  filter is_copy (calls o) = [CallCopy fw_file (realpath w mp)]
  /\ In (CallResolve mp) (calls o)
  /\ (res o = Ok tt ->
      Shutil.copy (fs w) fw_file (realpath w mp) false
      = inr (fs (final o))).
Proof.
  cbn zeta. rewrite flash_binary_run, find_run. cbn [res final].
  rewrite build_run. cbn [fs enumerated].
  destruct (scan_devices _ _) as [d|]; [|discriminate]. intros [= ->].
  destruct (candidate _ _ _) as [fw|]; [|discriminate]. cbn [res].
  destruct (path_exists (fs w) fw); [|discriminate]. intros [= ->].
  intros ->.
  destruct (Shutil.copy _ _ _ _) as [e|f'] eqn:Hcopy; cbn [res final calls].
  - split; [reflexivity|split; [simpl; tauto|discriminate]].
  - split; [|split; [simpl; tauto|reflexivity]].
    rewrite filter_app, sync_calls_no_copy. reflexivity.
Qed.

(** C10 (amended). When the resolved device has no mount point and the
    artifact is located, [flash_binary] raises [IndexError], before any copy
    and with the file system untouched. Hence a run that succeeds resolved
    a device with at least one mount point. *)
Theorem C10_empty_mount_points_index_error
        (program_path build_dir : Path) (target : str) (hex_file : bool)
        (w : World) (device : Device) :
  res (_find_connected_device target w) = Ok device ->
  let o := flash_binary program_path build_dir target hex_file w in
  (mount_points device = [] ->
   forall fw_file,
     res (_build_binary_file_path program_path build_dir hex_file
                                  (final (_find_connected_device target w)))
     = Ok fw_file ->
     res o = Raise IndexError
     /\ fs (final o) = fs w
     /\ count is_copy (calls o) = 0)
  /\ (res o = Ok tt -> mount_points device <> []).
Proof.
  cbn zeta. rewrite flash_binary_run, find_run. cbn [res final].
  rewrite build_run. cbn [fs enumerated].
  destruct (scan_devices _ _) as [d|]; [|discriminate]. intros [= ->].
  split.
  - intros -> fw_file.
    destruct (candidate _ _ _) as [fw|]; [|discriminate]. cbn [res].
    destruct (path_exists (fs w) fw); [|discriminate]. intros _.
    now repeat split.
  - destruct (candidate _ _ _) as [fw|]; [|discriminate].
    destruct (path_exists (fs w) fw); [|discriminate].
    destruct (mount_points device); [discriminate|]. intros _. discriminate.
Qed.

(** *** The copy and symbolic links *)

Lemma fs_set_same f p n : fs_set f p n p = Some n.
Proof.
  unfold fs_set, path_eqb. now destruct (Path_eq_dec p p).
Qed.

Lemma fs_set_other f p n q : q <> p -> fs_set f p n q = f q.
Proof.
  intros H. unfold fs_set, path_eqb. now destruct (Path_eq_dec q p).
Qed.

(** Where following links ends is not a link. *)
Lemma follow_lands fuel f p q o :
  follow fuel f p = At q o ->
  o = f q /\ (forall text, f q <> Some (Link text)).
Proof.
  revert p. induction fuel as [|k IH]; intros p; cbn [follow];
    destruct (f p) as [[data| |text|err]|] eqn:E;
    try discriminate; try (intros [= <- <-]; split; congruence).
  apply IH.
Qed.

Lemma open_wb_lands f p q :
  open_wb f p = inr q ->
  follow MAXSYMLINKS f p = At q (f q)
  /\ (forall text, f q <> Some (Link text)).
Proof.
  unfold open_wb. destruct (follow MAXSYMLINKS f p) as [|q' o] eqn:E;
    [discriminate|].
  destruct (follow_lands _ _ _ E) as [-> Hq].
  destruct (f q') as [[data| |text|err]|] eqn:Eq; try discriminate.
  - intros [= <-]. now rewrite Eq.
  - destruct (creatable f q'); [discriminate|]. intros [= <-].
    now rewrite Eq.
Qed.

(** C4 (amended). In a run of [flash_binary] that succeeds, let [dst] be
    the file the copy writes. If the located artifact is a symbolic link,
    nothing existed at [dst], a symbolic link with the text of the artifact
    link is made there, and no other entry changes: the bytes behind the
    link are not copied. If the artifact is not a link and a symbolic link
    already sits at [dst], that link stays as it is and the artifact's bytes
    are written to the entry the link leads to. *)
Theorem C4_link_artifact_copied_as_link
        (program_path build_dir : Path) (target : str) (hex_file : bool)
        (w : World) :
  let o := flash_binary program_path build_dir target hex_file w in
  res o = Ok tt ->
  exists fw_file disk dst,
    res (_build_binary_file_path program_path build_dir hex_file
                                 (final (_find_connected_device target w)))
    = Ok fw_file
    /\ filter is_copy (calls o) = [CallCopy fw_file disk]
    /\ dst = Shutil.copy_target (fs w) fw_file disk
    /\ (forall text,
           fs w fw_file = Some (Link text) ->
           fs w dst = None
           /\ fs (final o) dst = Some (Link text)
           /\ (forall p, p <> dst -> fs (final o) p = fs w p))
    /\ (forall text,
           islink (fs w) fw_file = false ->
           fs w dst = Some (Link text) ->
           fs (final o) dst = Some (Link text)
           /\ exists q data,
               q <> dst
               /\ follow MAXSYMLINKS (fs w) dst = At q (fs w q)
               /\ read_bytes (fs w) fw_file = inr data
               /\ fs (final o) q = Some (Reg data)).
Proof.
  cbn zeta. rewrite flash_binary_run, find_run. cbn [final].
  rewrite build_run. cbn [fs enumerated].
  destruct (scan_devices _ _) as [device|]; [|discriminate].
  destruct (candidate _ _ _) as [fw|]; [|discriminate]. cbn [res].
  destruct (path_exists (fs w) fw); [|discriminate].
  destruct (mount_points device) as [|mp rest]; [discriminate|].
  destruct (Shutil.copy _ _ _ _) as [e|f'] eqn:Hcopy; [discriminate|].
  intros _. cbn [res final calls set_fs fs].
  exists fw, (realpath w mp), (Shutil.copy_target (fs w) fw (realpath w mp)).
  split; [reflexivity|split; [|split; [reflexivity|]]].
  { rewrite filter_app, sync_calls_no_copy. reflexivity. }
  revert Hcopy. unfold Shutil.copy, Shutil.copyfile.
  set (f := fs w). set (dst := Shutil.copy_target f fw (realpath w mp)).
  destruct (samefile f fw dst); [discriminate|]. cbn [negb andb].
  destruct (islink f fw) eqn:Hl.
  - unfold islink in Hl.
    destruct (f fw) as [[data| |text|err]|] eqn:Hfw; try discriminate.
    unfold symlink. destruct (f dst) as [[d0| |t0|e0]|] eqn:Hdst;
      try discriminate.
    destruct (creatable f dst); [discriminate|]. intros [= <-].
    split; [|discriminate].
    intros text' [= <-]. split; [reflexivity|split].
    + apply fs_set_same.
    + intros p Hp. now apply fs_set_other.
  - destruct (read_bytes f fw) as [e|data] eqn:Hr; [discriminate|].
    destruct (open_wb f dst) as [e|q] eqn:Ho; [discriminate|].
    intros [= <-]. split.
    + intros text Hfw. unfold islink in Hl. now rewrite Hfw in Hl.
    + intros text _ Hdst.
      destruct (open_wb_lands _ _ Ho) as [Hfo Hq].
      assert (q <> dst) by (intros ->; exact (Hq _ Hdst)).
      split.
      * rewrite fs_set_other by congruence. exact Hdst.
      * exists q, data. repeat split; trivial. apply fs_set_same.
Qed.

(** *** Further properties of device resolution *)

Lemma scan_devices_caseless devices target target' :
  caseless_eq target target' ->
  scan_devices devices target = scan_devices devices target'.
Proof.
  intros H. induction devices as [|x rest IH]; simpl; [reflexivity|].
  unfold caseless_eq in H. now rewrite H, IH.
Qed.

Lemma scan_devices_app devices extra target :
  scan_devices (devices ++ extra) target
  = match scan_devices devices target with
    | Some d => Some d
    | None => scan_devices extra target
    end.
Proof.
  induction devices as [|x rest IH]; simpl; [reflexivity|].
  now destruct (str_eqb _ _).
Qed.

(** X1. The letter case of the target does not matter: two targets that are
    equal after upper-casing give the same run of [_find_connected_device]
    and the same run of [flash_binary], in every world. *)
Theorem find_ignores_target_case
        (target target' : str) (w : World) :
  caseless_eq target target' ->
  _find_connected_device target w = _find_connected_device target' w
  /\ (forall program_path build_dir hex_file,
         flash_binary program_path build_dir target hex_file w
         = flash_binary program_path build_dir target' hex_file w).
Proof.
  intros H. split.
  - rewrite !find_run. now rewrite (scan_devices_caseless _ H).
  - intros pp bd hex. rewrite !flash_binary_run.
    now rewrite (scan_devices_caseless _ H).
Qed.

(** X2. Devices listed after the ones already connected never displace a
    match: when the listing grows at its end, [_find_connected_device]
    returns the device it returned before, and only when it found none does
    it answer from the added devices. *)
Theorem find_stable_under_appended_devices
        (target : str) (w w' : World) (extra : list Device) :
  current_listing w' = current_listing w ++ extra ->
  res (_find_connected_device target w')
  = match res (_find_connected_device target w) with
    | Ok d => Ok d
    | Raise _ => lookup_in extra target
    end.
Proof.
  intros H. rewrite !find_run. cbn [res]. rewrite H, scan_devices_app.
  unfold lookup_in. now destruct (scan_devices (current_listing w) target).
Qed.

(** *** Further properties of artifact location *)

Lemma with_suffix_none_iff (p : Path) (hex_file : bool) :
  with_suffix p (if hex_file then py ".hex" else py ".bin") = None
  <-> name p = [].
Proof.
  unfold with_suffix.
  assert (Hc : contains sep (if hex_file then py ".hex" else py ".bin")
               = false) by now destruct hex_file.
  rewrite Hc.
  assert (Hs : (negb (str_eqb (if hex_file then py ".hex" else py ".bin") [])
                && negb (startswith dot
                           (if hex_file then py ".hex" else py ".bin"))
                || str_eqb (if hex_file then py ".hex" else py ".bin") [dot])
               %bool = false) by now destruct hex_file.
  rewrite Hs.
  destruct (str_eqb (name p) []) eqn:E.
  - apply str_eqb_eq in E. tauto.
  - apply str_eqb_neq in E. split; [discriminate | contradiction].
Qed.

(** X3. [_build_binary_file_path] raises [ValueError] exactly when
    [build_dir / program_path.name] has an empty name, that is when neither
    the project path nor the build directory has a last component. It then
    has probed nothing; in every other case it probes one path. The world is
    left as it was. *)
Theorem build_path_value_error_iff_empty_name
        (program_path build_dir : Path) (hex_file : bool) (w : World) :
  let o := _build_binary_file_path program_path build_dir hex_file w in
  (res o = Raise ValueError
   <-> name (truediv build_dir (name program_path)) = [])
  /\ (name (truediv build_dir (name program_path)) = [] -> calls o = [])
  /\ (name (truediv build_dir (name program_path)) <> [] ->
      exists fw_file, calls o = [CallExists fw_file])
  /\ final o = w.
Proof.
  cbn zeta. rewrite build_run. unfold candidate.
  destruct (with_suffix _ _) as [fw|] eqn:E.
  - assert (Hn : name (truediv build_dir (name program_path)) <> []).
    { intros Hn. apply (proj2 (@with_suffix_none_iff _ hex_file)) in Hn.
      congruence. }
    cbn [res final calls]. split; [split|split; [|split]].
    + unfold probe_error. destruct (path_exists (fs w) fw); [discriminate|].
      destruct (stat (fs w) fw) as [e|n]; [destruct (ignored e)|];
        discriminate.
    + contradiction.
    + contradiction.
    + intros _. now exists fw.
    + reflexivity.
  - apply with_suffix_none_iff in E. cbn [res final calls].
    split; [tauto|split; [reflexivity|split; [contradiction|reflexivity]]].
Qed.

Lemma split_nonempty c s : split c s <> [].
Proof.
  destruct s as [|x s]; simpl; [discriminate|].
  destruct (N.eqb x c); [discriminate|].
  destruct (split c s); discriminate.
Qed.

Lemma split_no_sep c s x : In x (split c s) -> ~ In c x.
Proof.
  revert x. induction s as [|y s IH]; intros x; simpl.
  - intros [<-|[]] [].
  - destruct (N.eqb_spec y c) as [->|Hy].
    + intros [<-|H]; [intros [] | now apply IH].
    + destruct (split c s) as [|h t] eqn:E.
      * intros [<-|[]] [H|[]]. congruence.
      * intros [<-|H].
        -- intros [H|H]; [congruence|]. apply (IH h); [now left | exact H].
        -- apply IH. now right.
Qed.

Lemma parse_parts_comps_clean s : Forall clean (comps (parse_parts s)).
Proof.
  unfold parse_parts. destruct (splitroot s) as [root rel]. cbn [comps].
  apply Forall_forall. intros x Hx. apply filter_In in Hx.
  destruct Hx as [Hin Hp]. apply andb_true_iff in Hp. destruct Hp as [H1 H2].
  apply negb_true_iff in H1, H2. apply str_eqb_neq in H1, H2.
  repeat split; trivial. exact (split_no_sep _ _ _ Hin).
Qed.

Lemma last_Forall {A} (P : A -> Prop) l d :
  Forall P l -> l <> [] -> P (last l d).
Proof.
  induction 1 as [|x l Hx Hl IH]; [congruence|]. intros _.
  destruct l as [|y l]; [exact Hx|]. apply IH. discriminate.
Qed.

Lemma parse_parts_name_clean s :
  name (parse_parts s) <> [] -> clean (name (parse_parts s)).
Proof.
  unfold name. intros H. apply last_Forall.
  - apply parse_parts_comps_clean.
  - intros E. rewrite E in H. now apply H.
Qed.

Lemma with_suffix_stem p sfx q :
  with_suffix p sfx = Some q ->
  anchor q = anchor p /\ comps q = removelast (comps p) ++ [stem p ++ sfx].
Proof.
  unfold with_suffix. destruct (contains sep sfx); [discriminate|].
  destruct (_ || _)%bool; [discriminate|].
  destruct (str_eqb (name p) []); [discriminate|].
  unfold suffix, stem. set (i := rfind dot (name p)).
  destruct (0 <? i)%Z eqn:E0; cbn [andb];
    [|intros [= <-]; now split].
  destruct (i <? Z.of_nat (List.length (name p)) - 1)%Z eqn:E1;
    [|intros [= <-]; now split].
  apply Z.ltb_lt in E0, E1.
  assert (Hk : (Z.to_nat i < List.length (name p))%nat) by lia.
  destruct (str_eqb (skipn (Z.to_nat i) (name p)) []) eqn:Es.
  - apply str_eqb_eq in Es. apply (f_equal (@List.length N)) in Es.
    rewrite length_skipn in Es. simpl in Es. lia.
  - rewrite length_skipn.
    replace (List.length (name p) - (List.length (name p) - Z.to_nat i))%nat
      with (Z.to_nat i) by lia.
    intros [= <-]. now split.
Qed.

Lemma stem_of_name p q : name p = name q -> stem p = stem q.
Proof. unfold stem. now intros ->. Qed.

Lemma candidate_of_named_project s build_dir (hex_file : bool) :
  name (parse_parts s) <> [] ->
  candidate (parse_parts s) build_dir hex_file
  = Some (mkPath (anchor build_dir)
                 (comps build_dir
                    ++ [stem (parse_parts s)
                          ++ (if hex_file then py ".hex" else py ".bin")])).
Proof.
  intros Hn. unfold candidate, truediv.
  rewrite (parse_parts_clean (parse_parts_name_clean _ Hn)).
  unfold join_parsed_parts. cbn [anchor comps].
  set (p := mkPath (anchor build_dir)
                   (comps build_dir ++ [name (parse_parts s)])).
  assert (Hp : name p = name (parse_parts s))
    by (unfold name at 1; subst p; cbn [comps]; apply last_last).
  destruct (with_suffix p _) as [q|] eqn:E.
  - apply with_suffix_stem in E. destruct E as [Ha Hc].
    subst p. cbn [anchor comps] in Ha, Hc.
    rewrite removelast_last, (stem_of_name _ _ Hp) in Hc.
    destruct q as [qa qc]. cbn [anchor comps] in Ha, Hc. subst qa qc.
    reflexivity.
  - apply with_suffix_none_iff in E. congruence.
Qed.


(** *** Further properties of the pipeline *)

(** What a run that succeeds went through. *)
Lemma flash_binary_ok_inv program_path build_dir target hex_file w :
  res (flash_binary program_path build_dir target hex_file w) = Ok tt ->
  exists device fw_file mp rest f',
    scan_devices (current_listing w) target = Some device
    /\ candidate program_path build_dir hex_file = Some fw_file
    /\ path_exists (fs w) fw_file = true
    /\ mount_points device = mp :: rest
    /\ Shutil.copy (fs w) fw_file (realpath w mp) false = inr f'
    /\ final (flash_binary program_path build_dir target hex_file w)
       = set_fs (enumerated w) f'
    /\ calls (flash_binary program_path build_dir target hex_file w)
       = [CallGetConnectedDevices; CallExists fw_file; CallResolve mp;
          CallCopy fw_file (realpath w mp)] ++ sync_calls w.
Proof.
  rewrite flash_binary_run.
  destruct (scan_devices _ _) as [device|] eqn:Hs; [|discriminate].
  destruct (candidate _ _ _) as [fw|] eqn:Hf; [|discriminate].
  destruct (path_exists (fs w) fw) eqn:He; [|discriminate].
  destruct (mount_points device) as [|mp rest] eqn:Hm; [discriminate|].
  destruct (Shutil.copy _ _ _ _) as [e|f'] eqn:Hc; [discriminate|].
  intros _. exists device, fw, mp, rest, f'. now repeat split.
Qed.

(** X5. [flash_binary] succeeds exactly when all four steps do: a device
    matches, the artifact is located, the device has a first mount point and
    the copy onto it goes through. The world it leaves is the one after one
    enumeration, with the file system the copy produced. *)
Theorem flash_binary_succeeds_iff
        (program_path build_dir : Path) (target : str) (hex_file : bool)
        (w : World) :
  let o := flash_binary program_path build_dir target hex_file w in
  (res o = Ok tt
   <-> exists device fw_file mp rest f',
      res (_find_connected_device target w) = Ok device
      /\ res (_build_binary_file_path program_path build_dir hex_file w)
         = Ok fw_file
      /\ mount_points device = mp :: rest
      /\ Shutil.copy (fs w) fw_file (realpath w mp) false = inr f')
  /\ (forall device fw_file mp rest f',
         res (_find_connected_device target w) = Ok device ->
         res (_build_binary_file_path program_path build_dir hex_file w)
         = Ok fw_file ->
         mount_points device = mp :: rest ->
         Shutil.copy (fs w) fw_file (realpath w mp) false = inr f' ->
         final o = set_fs (enumerated w) f').
Proof.
  cbn zeta. split; [split|].
  - intros H. apply flash_binary_ok_inv in H.
    destruct H as (device & fw & mp & rest & f' & Hs & Hc & He & Hm & Hcp & _).
    exists device, fw, mp, rest, f'. rewrite find_run, build_run, Hs, Hc.
    cbn [res]. rewrite He. now repeat split.
  - intros (device & fw & mp & rest & f' & Hd & Hf & Hm & Hcp).
    revert Hd Hf. rewrite find_run, build_run, flash_binary_run. cbn [res].
    destruct (scan_devices _ _) as [d|]; [|discriminate]. intros [= ->].
    destruct (candidate _ _ _) as [fw'|]; [|discriminate]. cbn [res].
    destruct (path_exists (fs w) fw'); [|discriminate]. intros [= ->].
    now rewrite Hm, Hcp.
  - intros device fw mp rest f'.
    rewrite find_run, build_run, flash_binary_run. cbn [res].
    destruct (scan_devices _ _) as [d|]; [|discriminate]. intros [= ->].
    destruct (candidate _ _ _) as [fw'|]; [|discriminate]. cbn [res].
    destruct (path_exists (fs w) fw'); [|discriminate]. intros [= ->].
    intros -> ->. reflexivity.
Qed.

(** X6. [os.sync] is called only to end a run that succeeded: a run of
    [flash_binary] contains a sync call exactly when it succeeds on a system
    that is not Windows. In particular no run that fails, at whatever step,
    calls it. *)
Theorem sync_only_after_successful_copy
        (program_path build_dir : Path) (target : str) (hex_file : bool)
        (w : World) :
  let o := flash_binary program_path build_dir target hex_file w in
  In CallSync (calls o) <-> (res o = Ok tt /\ system w <> py "Windows").
Proof.
  cbn zeta. rewrite flash_binary_run. unfold sync_calls.
  destruct (scan_devices _ _) as [device|];
    [|split; [simpl; intuition discriminate | intros [H _]; discriminate]].
  destruct (candidate _ _ _) as [fw|];
    [|split; [simpl; intuition discriminate | intros [H _]; discriminate]].
  destruct (path_exists _ _);
    [|split; [simpl; intuition discriminate | intros [H _]; discriminate]].
  destruct (mount_points device) as [|mp rest];
    [split; [simpl; intuition discriminate | intros [H _]; discriminate]|].
  destruct (Shutil.copy _ _ _ _) as [e|f'];
    [split; [simpl; intuition discriminate | intros [H _]; discriminate]|].
  cbn [res calls]. destruct (str_eqb (system w) (py "Windows")) eqn:E.
  - apply str_eqb_eq in E. split.
    + simpl. intuition discriminate.
    + intros [_ H]. contradiction.
  - apply str_eqb_neq in E. split.
    + intros _. now split.
    + intros _. simpl. tauto.
Qed.

(** X7. When the copy itself fails, [flash_binary] ends in the exception of
    [shutil.copy], which is [SameFileError] or an [OSError]; the copy is
    the last call of the run and no sync follows it, on any system. *)
Theorem copy_failure_propagates_without_sync
        (program_path build_dir : Path) (target : str) (hex_file : bool)
        (w : World) (device : Device) (fw_file mp : Path)
        (rest : list Path) (e : exn) :
  res (_find_connected_device target w) = Ok device ->
  res (_build_binary_file_path program_path build_dir hex_file w)
  = Ok fw_file ->
  mount_points device = mp :: rest ->
  Shutil.copy (fs w) fw_file (realpath w mp) false = inl e ->
  let o := flash_binary program_path build_dir target hex_file w in
  res o = Raise e
  /\ calls o = [CallGetConnectedDevices; CallExists fw_file; CallResolve mp;
                CallCopy fw_file (realpath w mp)]
  /\ (e = SameFileError \/ exists n, e = OSError n).
Proof.
  cbn zeta. rewrite find_run, build_run, flash_binary_run. cbn [res].
  destruct (scan_devices _ _) as [d|]; [|discriminate]. intros [= ->].
  destruct (candidate _ _ _) as [fw'|]; [|discriminate]. cbn [res].
  destruct (path_exists (fs w) fw'); [|discriminate]. intros [= ->].
  intros -> Hc. rewrite Hc. cbn [res calls].
  split; [reflexivity|split; [reflexivity|]].
  exact (copy_error_kinds _ _ _ _ Hc).
Qed.

(** X8. The calls of a run are always an initial part of one fixed
    sequence: the enumeration, the existence probe, the resolution of a
    mount point, the copy, the sync. No step is repeated and none is made
    before the steps that precede it. Whenever the probe is made, the path
    probed is the candidate artifact and a device was resolved; whenever a
    mount point is resolved, it is the first mount point of that device, and
    the copy takes the artifact to its resolved form. *)
Theorem flash_binary_calls_in_order
        (program_path build_dir : Path) (target : str) (hex_file : bool)
        (w : World) :
  exists fw_file mp k,
    1 <= k <= 5
    /\ calls (flash_binary program_path build_dir target hex_file w)
       = firstn k [CallGetConnectedDevices; CallExists fw_file;
                   CallResolve mp; CallCopy fw_file (realpath w mp);
                   CallSync]
    /\ (2 <= k ->
        with_suffix (truediv build_dir (name program_path))
                    (if hex_file then py ".hex" else py ".bin")
        = Some fw_file
        /\ exists device,
            res (_find_connected_device target w) = Ok device
            /\ (3 <= k -> exists rest, mount_points device = mp :: rest)).
Proof.
  rewrite flash_binary_run, find_run. cbn [res]. unfold candidate.
  destruct (scan_devices _ _) as [device|];
    [|exists build_dir, build_dir, 1; split; [lia|split; [reflexivity|lia]]].
  destruct (with_suffix _ _) as [fw|];
    [|exists build_dir, build_dir, 1; split; [lia|split; [reflexivity|lia]]].
  assert (Hdev : forall (P : Prop), (P -> False) ->
             exists d, Ok device = Ok d
                       /\ (P -> exists rest,
                                  mount_points d = build_dir :: rest)).
  { intros P HP. exists device. split; [reflexivity|]. intros H.
    destruct (HP H). }
  destruct (path_exists _ _).
  2:{ exists fw, build_dir, 2. split; [lia|split; [reflexivity|]].
      intros _. split; [reflexivity|]. apply Hdev. lia. }
  destruct (mount_points device) as [|mp rest] eqn:Hm.
  { exists fw, build_dir, 2. split; [lia|split; [reflexivity|]].
    intros _. split; [reflexivity|]. apply Hdev. lia. }
  assert (Hd : exists d, Ok device = Ok d
                         /\ (3 <= 4 -> exists r, mount_points d = mp :: r)
                         /\ (3 <= 5 -> exists r, mount_points d = mp :: r)).
  { exists device. split; [reflexivity|]. split; intros _; now exists rest. }
  destruct Hd as (d & Hd & H4 & H5).
  destruct (Shutil.copy _ _ _ _) as [e|f'].
  { exists fw, mp, 4. split; [lia|split; [reflexivity|]].
    intros _. split; [reflexivity|]. now exists d. }
  unfold sync_calls. destruct (str_eqb _ _).
  - exists fw, mp, 4. split; [lia|split; [reflexivity|]].
    intros _. split; [reflexivity|]. now exists d.
  - exists fw, mp, 5. split; [lia|split; [reflexivity|]].
    intros _. split; [reflexivity|]. now exists d.
Qed.

(** X13. For ASCII identifiers the comparison [_find_connected_device]
    makes, equality after [upper], is letter-by-letter equality up to the
    case of the letters: same length, and at each position the same
    character or the same ASCII letter in the other case. *)
Theorem upper_eq_same_letters_on_ascii (a b : str) :
  ascii_faithful U -> is_ascii a -> is_ascii b ->
  (str_eqb (upper a) (upper b) = true <-> same_letters a b = true).
Proof.
  intros HU Ha Hb. rewrite str_eqb_eq. now apply caseless_on_ascii.
Qed.

(** *** Further properties of the copy *)

Lemma follow_nonlink fuel f p :
  (forall text, f p <> Some (Link text)) -> follow fuel f p = At p (f p).
Proof.
  intros H. destruct fuel; cbn [follow];
    destruct (f p) as [[data| |text|err]|] eqn:E; try reflexivity;
    exfalso; exact (H _ eq_refl).
Qed.

Lemma follow_fs_set fuel f p q o data :
  follow fuel f p = At q o ->
  follow fuel (fs_set f q (Reg data)) p = At q (Some (Reg data)).
Proof.
  revert p. induction fuel as [|k IH]; intros p; cbn [follow];
    destruct (f p) as [[d| |text|err]|] eqn:E;
    try discriminate;
    try (intros [= <- <-]; now rewrite fs_set_same).
  intros H. assert (Hp : p <> q).
  { intros ->. exact (proj2 (follow_lands _ _ _ H) _ E). }
  rewrite (fs_set_other _ _ Hp), E. now apply IH.
Qed.

Lemma read_after_write f dst q data :
  open_wb f dst = inr q ->
  read_bytes (fs_set f q (Reg data)) dst = inr data.
Proof.
  intros H. destruct (open_wb_lands _ _ H) as [Hf _].
  unfold read_bytes. now rewrite (@follow_fs_set _ _ _ _ _ data Hf).
Qed.

Lemma path_eqb_neq p q : path_eqb p q = false -> p <> q.
Proof.
  unfold path_eqb. destruct (Path_eq_dec p q); [discriminate | trivial].
Qed.

Lemma path_exists_entry f p : path_exists f p = true -> f p <> None.
Proof.
  unfold path_exists, stat. intros H E.
  rewrite follow_nonlink in H by (intros text; congruence).
  now rewrite E in H.
Qed.

(** The two ways [shutil.copyfile] can succeed without following links. *)
Lemma copyfile_ok_inv f src dst f' :
  Shutil.copyfile f src dst false = inr f' ->
  samefile f src dst = false
  /\ ((exists text,
          f src = Some (Link text) /\ f dst = None
          /\ f' = fs_set f dst (Link text))
      \/ (islink f src = false
          /\ exists data q,
              read_bytes f src = inr data /\ open_wb f dst = inr q
              /\ f' = fs_set f q (Reg data))).
Proof.
  unfold Shutil.copyfile.
  destruct (samefile f src dst); [discriminate|]. cbn [negb andb].
  split; [reflexivity|]. revert H.
  destruct (islink f src) eqn:Hl.
  - unfold islink in Hl.
    destruct (f src) as [[data| |text|err]|] eqn:Hs; try discriminate.
    unfold symlink. destruct (f dst) as [[d0| |t0|e0]|] eqn:Hd;
      try discriminate.
    destruct (creatable f dst); [discriminate|]. intros [= <-].
    left. now exists text.
  - destruct (read_bytes f src) as [e|data]; [discriminate|].
    destruct (open_wb f dst) as [e|q]; [discriminate|]. intros [= <-].
    right. split; [reflexivity|]. now exists data, q.
Qed.

(** X9. After a run that succeeds with an artifact that is not a symbolic
    link, reading the file the copy wrote gives exactly the bytes of the
    artifact, whatever was there before. *)
Theorem flashed_image_readable
        (program_path build_dir : Path) (target : str) (hex_file : bool)
        (w : World) :
  let o := flash_binary program_path build_dir target hex_file w in
  res o = Ok tt ->
  exists device fw_file mp rest,
    res (_find_connected_device target w) = Ok device
    /\ res (_build_binary_file_path program_path build_dir hex_file w)
       = Ok fw_file
    /\ mount_points device = mp :: rest
    /\ (islink (fs w) fw_file = false ->
        exists data,
          read_bytes (fs w) fw_file = inr data
          /\ read_bytes (fs (final o))
                        (Shutil.copy_target (fs w) fw_file (realpath w mp))
             = inr data).
Proof.
  cbn zeta. intros H. apply flash_binary_ok_inv in H.
  destruct H as (device & fw & mp & rest & f' & Hs & Hc & He & Hm & Hcp
                 & Hfin & _).
  exists device, fw, mp, rest. rewrite find_run, build_run, Hs, Hc.
  cbn [res]. rewrite He, Hfin. cbn [set_fs fs].
  split; [reflexivity|split; [reflexivity|split; [exact Hm|]]].
  intros Hl. unfold Shutil.copy in Hcp.
  apply copyfile_ok_inv in Hcp.
  destruct Hcp as [_ [(text & Hsrc & _)|(_ & data & q & Hr & Ho & ->)]].
  - unfold islink in Hl. now rewrite Hsrc in Hl.
  - exists data. split; [exact Hr|]. now apply read_after_write.
Qed.

(** X10. A run that succeeds changes one entry of the file system, the one
    the copy writes, and that entry is never the artifact: the artifact and
    every other entry are as before. *)
Theorem flash_changes_one_entry
        (program_path build_dir : Path) (target : str) (hex_file : bool)
        (w : World) :
  let o := flash_binary program_path build_dir target hex_file w in
  res o = Ok tt ->
  exists fw_file written,
    res (_build_binary_file_path program_path build_dir hex_file w)
    = Ok fw_file
    /\ written <> fw_file
    /\ fs (final o) fw_file = fs w fw_file
    /\ (forall p, p <> written -> fs (final o) p = fs w p).
Proof.
  cbn zeta. intros H. apply flash_binary_ok_inv in H.
  destruct H as (device & fw & mp & rest & f' & Hs & Hc & He & Hm & Hcp
                 & Hfin & _).
  rewrite build_run, Hc. cbn [res]. rewrite He, Hfin. cbn [set_fs fs].
  pose proof (path_exists_entry _ _ He) as Hfw.
  unfold Shutil.copy in Hcp. apply copyfile_ok_inv in Hcp.
  destruct Hcp as [Hsame [(text & Hsrc & Hdst & ->)
                         |(Hl & data & q & Hr & Ho & ->)]].
  - set (dst := Shutil.copy_target (fs w) fw (realpath w mp)) in *.
    assert (dst <> fw) by congruence.
    exists fw, dst. split; [reflexivity|split; [assumption|split]].
    + apply fs_set_other. congruence.
    + intros p Hp. now apply fs_set_other.
  - assert (Hq : q <> fw).
    { destruct (open_wb_lands _ _ Ho) as [Hfo _].
      unfold samefile in Hsame. rewrite Hfo in Hsame.
      rewrite follow_nonlink in Hsame
        by (intros text E; unfold islink in Hl; now rewrite E in Hl).
      unfold read_bytes in Hr. rewrite follow_nonlink in Hr
        by (intros text E; unfold islink in Hl; now rewrite E in Hl).
      unfold open_wb in Ho. rewrite Hfo in Ho.
      destruct (fs w fw) as [[d| |t|e]|] eqn:Efw; try discriminate.
      destruct (fs w q) as [[d'| |t'|e']|] eqn:Eq; try discriminate;
        [|congruence].
      apply path_eqb_neq in Hsame. congruence. }
    exists fw, q. split; [reflexivity|split; [assumption|split]].
    + apply fs_set_other. congruence.
    + intros p Hp. now apply fs_set_other.
Qed.

(** *** Where the image lands *)

Lemma split_app_sep c a b : split c (a ++ c :: b) = split c a ++ split c b.
Proof.
  induction a as [|x a IH]; cbn [app split].
  - now rewrite N.eqb_refl.
  - rewrite IH. destruct (N.eqb x c); [reflexivity|].
    pose proof (split_nonempty c a) as Hne.
    destruct (split c a) as [|h t]; [congruence | reflexivity].
Qed.

Lemma last_app_nonempty {A} (l l' : list A) d :
  l' <> [] -> last (l ++ l') d = last l' d.
Proof.
  intros H. induction l as [|x l IH]; [reflexivity|].
  cbn [app]. rewrite <- IH. cbn [last].
  destruct (l ++ l') eqn:E; [|reflexivity].
  apply app_eq_nil in E. destruct E; congruence.
Qed.

Lemma join_snoc c cs x :
  cs <> [] -> join c (cs ++ [x]) = join c cs ++ c :: x.
Proof.
  induction cs as [|y cs IH]; [congruence|]. intros _.
  destruct cs as [|z cs]; [reflexivity|].
  change (join c ((y :: z :: cs) ++ [x]))
    with (y ++ c :: join c ((z :: cs) ++ [x])).
  rewrite IH by discriminate.
  change (join c (y :: z :: cs)) with (y ++ c :: join c (z :: cs)).
  now rewrite <- app_assoc.
Qed.

Lemma path_str_nonempty a cs :
  a ++ join sep cs <> [] -> path_str (mkPath a cs) = a ++ join sep cs.
Proof.
  unfold path_str. cbn [anchor comps].
  destruct (a ++ join sep cs); [congruence | reflexivity].
Qed.

Lemma basename_snoc a cs x :
  x <> [] -> ~ In sep x ->
  (cs = [] -> a = [] \/ exists a', a = a' ++ [sep]) ->
  basename (mkPath a (cs ++ [x])) = x.
Proof.
  intros Hx Hs Ha. unfold basename.
  assert (Hlast : forall l, last (split sep (l ++ sep :: x)) [] = x).
  { intros l. rewrite split_app_sep, last_app_nonempty
      by apply split_nonempty.
    now rewrite split_without_sep. }
  assert (Hne : forall l : str, l ++ sep :: x <> [])
    by (intros [|y l]; discriminate).
  destruct cs as [|y cs].
  - destruct (Ha eq_refl) as [->|[a' ->]].
    + rewrite path_str_nonempty by exact Hx. cbn [app join].
      now rewrite split_without_sep.
    + assert (E : (a' ++ [sep]) ++ join sep ([] ++ [x]) = a' ++ sep :: x)
        by (now rewrite <- app_assoc).
      rewrite path_str_nonempty by (rewrite E; apply Hne).
      rewrite E. apply Hlast.
  - assert (E : a ++ join sep ((y :: cs) ++ [x])
                = (a ++ join sep (y :: cs)) ++ sep :: x)
      by (rewrite join_snoc by discriminate; apply app_assoc).
    rewrite path_str_nonempty by (rewrite E; apply Hne).
    rewrite E. apply Hlast.
Qed.

Lemma parse_parts_anchor s :
  anchor (parse_parts s) = []
  \/ exists a', anchor (parse_parts s) = a' ++ [sep].
Proof.
  unfold parse_parts, splitroot. destruct (startswith sep s); [|now left].
  destruct (Nat.eqb _ 2); cbn [anchor]; right.
  - now exists [sep].
  - now exists [].
Qed.

Lemma In_firstn {A} (x : A) n l : In x (firstn n l) -> In x l.
Proof.
  intros H. rewrite <- (firstn_skipn n l). apply in_or_app. now left.
Qed.

Lemma artifact_name_clean p (hex_file : bool) :
  ~ In sep (name p) ->
  clean (stem p ++ (if hex_file then py ".hex" else py ".bin")).
Proof.
  intros Hs. repeat split.
  - destruct hex_file; intros E; apply app_eq_nil in E;
      destruct E; discriminate.
  - intros E. apply (f_equal (@List.length N)) in E.
    rewrite length_app in E. destruct hex_file; simpl in E; lia.
  - intros Hin. apply in_app_or in Hin. destruct Hin as [Hin|Hin].
    + apply Hs. unfold stem in Hin.
      destruct (_ && _)%bool; [now apply In_firstn in Hin | exact Hin].
    + destruct hex_file; cbv in Hin; intuition discriminate.
Qed.

(** The name under which the artifact of a named project is known to
    [os.path.basename]. *)
Lemma artifact_basename s sb (hex_file : bool) :
  name (parse_parts s) <> [] ->
  basename (mkPath (anchor (parse_parts sb))
                   (comps (parse_parts sb)
                      ++ [stem (parse_parts s)
                            ++ (if hex_file then py ".hex" else py ".bin")]))
  = stem (parse_parts s) ++ (if hex_file then py ".hex" else py ".bin").
Proof.
  intros Hn.
  destruct (artifact_name_clean (parse_parts s) hex_file) as (H1 & _ & H3).
  { apply (parse_parts_name_clean _ Hn). }
  apply basename_snoc; trivial. intros _. apply parse_parts_anchor.
Qed.

Lemma samefile_refl f p : path_exists f p = true -> samefile f p p = true.
Proof.
  unfold path_exists, stat, samefile.
  destruct (follow MAXSYMLINKS f p) as [|q [[d| |t|e]|]]; try discriminate;
    intros _; unfold path_eqb; now destruct (Path_eq_dec q q).
Qed.

(** X11. With project path and build directory parsed from strings, the
    project having a name: after a run that succeeds with a regular file as
    artifact, the artifact's bytes can be read under the mount point, from
    the file named like the artifact, when the resolved mount point is a
    directory; when it is not a directory, they can be read from the
    mount-point path itself. *)
Theorem flashed_file_path
        (s sb : str) (target : str) (hex_file : bool) (w : World)
        (data : list Byte.byte) :
  name (parse_parts s) <> [] ->
  let artifact_name :=
      stem (parse_parts s) ++ (if hex_file then py ".hex" else py ".bin") in
  let fw_file :=
      mkPath (anchor (parse_parts sb))
             (comps (parse_parts sb) ++ [artifact_name]) in
  let o := flash_binary (parse_parts s) (parse_parts sb) target hex_file w in
  res o = Ok tt ->
  fs w fw_file = Some (Reg data) ->
  exists device mp rest,
    res (_find_connected_device target w) = Ok device
    /\ mount_points device = mp :: rest
    /\ (isdir (fs w) (realpath w mp) = true ->
        read_bytes (fs (final o))
                   (mkPath (anchor (realpath w mp))
                           (comps (realpath w mp) ++ [artifact_name]))
        = inr data)
    /\ (isdir (fs w) (realpath w mp) = false ->
        read_bytes (fs (final o)) (realpath w mp) = inr data).
Proof.
  intros Hn. cbn zeta. intros H Hreg. apply flash_binary_ok_inv in H.
  destruct H as (device & fw & mp & rest & f' & Hs & Hc & He & Hm & Hcp
                 & Hfin & _).
  rewrite candidate_of_named_project in Hc by exact Hn.
  injection Hc as <-.
  exists device, mp, rest. rewrite find_run, Hs, Hfin. cbn [res set_fs fs].
  split; [reflexivity|split; [exact Hm|]].
  assert (Hread : read_bytes f' (Shutil.copy_target
                                   (fs w)
                                   (mkPath (anchor (parse_parts sb))
                                           (comps (parse_parts sb)
                                              ++ [stem (parse_parts s)
                                                    ++ (if hex_file
                                                        then py ".hex"
                                                        else py ".bin")]))
                                   (realpath w mp)) = inr data).
  { unfold Shutil.copy in Hcp. apply copyfile_ok_inv in Hcp.
    destruct Hcp as [_ [(text & Hsrc & _)|(_ & d & q & Hr & Ho & ->)]];
      [congruence|].
    unfold read_bytes in Hr.
    rewrite follow_nonlink, Hreg in Hr by (intros text; congruence).
    injection Hr as <-. now apply read_after_write. }
  unfold Shutil.copy_target in Hread. split; intros Hd; rewrite Hd in Hread.
  - rewrite artifact_basename in Hread by exact Hn.
    unfold truediv in Hread.
    rewrite parse_parts_clean in Hread
      by (apply artifact_name_clean, (parse_parts_name_clean _ Hn)).
    exact Hread.
  - exact Hread.
Qed.

(** X12. With project path and build directory parsed from strings, the
    project having a name: when the first mount point of the resolved
    device resolves to the build directory itself and the artifact is
    there, [flash_binary] raises [SameFileError]; nothing is written and no
    sync is called. *)
Theorem flash_onto_build_dir_same_file
        (s sb : str) (target : str) (hex_file : bool) (w : World)
        (device : Device) (mp : Path) (rest : list Path) :
  name (parse_parts s) <> [] ->
  res (_find_connected_device target w) = Ok device ->
  mount_points device = mp :: rest ->
  realpath w mp = parse_parts sb ->
  isdir (fs w) (parse_parts sb) = true ->
  path_exists (fs w)
              (mkPath (anchor (parse_parts sb))
                      (comps (parse_parts sb)
                         ++ [stem (parse_parts s)
                               ++ (if hex_file then py ".hex"
                                   else py ".bin")])) = true ->
  let o := flash_binary (parse_parts s) (parse_parts sb) target hex_file w in
  res o = Raise SameFileError
  /\ fs (final o) = fs w
  /\ ~ In CallSync (calls o).
Proof.
  intros Hn Hd Hm Hr Hdir He. cbn zeta. revert Hd.
  rewrite find_run, flash_binary_run. cbn [res].
  destruct (scan_devices _ _) as [d|]; [|discriminate]. intros [= ->].
  rewrite candidate_of_named_project by exact Hn. rewrite He, Hm, Hr.
  unfold Shutil.copy, Shutil.copy_target, Shutil.copyfile.
  rewrite Hdir, artifact_basename by exact Hn. unfold truediv.
  assert (Hclean : clean (stem (parse_parts s)
                            ++ (if hex_file then py ".hex" else py ".bin")))
    by (apply artifact_name_clean, (parse_parts_name_clean _ Hn)).
  rewrite (parse_parts_clean Hclean).
  unfold join_parsed_parts. cbn [anchor comps].
  pose proof (samefile_refl _ _ He) as Hsame. unfold str in *.
  rewrite Hsame. cbn [res final calls enumerated fs].
  split; [reflexivity|split; [reflexivity|]].
  simpl. intuition discriminate.
Qed.

End Properties.

(** ** The interpreter's table *)

(** Below 128 the Unicode mapping is the ASCII one. *)
Lemma cpython_ascii_faithful : ascii_faithful cpython_table.
Proof.
  intros c Hc.
  assert (Hin : In c (map N.of_nat (seq 0 128))).
  { rewrite <- (N2Nat.id c). apply in_map, in_seq. lia. }
  assert (Hall : forallb (fun c => str_eqb (unicode_upper_full c)
                                           (ascii_upper_full c))
                         (map N.of_nat (seq 0 128)) = true)
    by (vm_compute; reflexivity).
  apply str_eqb_eq. exact (proj1 (forallb_forall _ _) Hall c Hin).
Defined.

Lemma is_ascii_py_k64f : is_ascii (py "k64f").
Proof. repeat constructor. Defined.

Lemma is_ascii_py_lpc1768 : is_ascii (py "LPC1768").
Proof. repeat constructor. Defined.

Lemma ascii_listing_linux : ascii_listing (current_listing Demo.linux).
Proof. repeat constructor. Defined.

(** ** Examples *)



Example posix_path_build : PosixPath "/build" = mkPath [47%N] [py "build"].
Proof. reflexivity. Qed.

Example with_suffix_replaces :
  option_map path_str (with_suffix (PosixPath "out/app.v2.elf") (py ".bin"))
  = Some (py "out/app.v2.bin").
Proof. reflexivity. Qed.

Example with_suffix_empty_name :
  with_suffix (truediv (PosixPath "/") (name (PosixPath "."))) (py ".bin")
  = None.
Proof. reflexivity. Qed.

(** A lower-case target finds the board that reports upper case, and it is
    the first of the two matching boards. *)
Example find_lower_case_target :
  res (Run.find "k64f" Demo.linux) = Ok Demo.k64f.
Proof. vm_compute. reflexivity. Qed.

(** An upper-case target finds a board that reports lower case. *)
Example find_upper_case_target :
  res (Run.find "K64F" (Demo.world_of [Demo.nucleo; Demo.k64f_lower]
                                      Demo.fs_bin "Linux"))
  = Ok Demo.k64f_lower.
Proof. vm_compute. reflexivity. Qed.

Example locate_bin :
  res (Run.locate false Demo.linux) = Ok (PosixPath "/build/myapp.bin").
Proof. vm_compute. reflexivity. Qed.

Example locate_hex :
  res (Run.locate true (Demo.world_of [Demo.k64f] Demo.fs_hex "Linux"))
  = Ok (PosixPath "/build/myapp.hex").
Proof. vm_compute. reflexivity. Qed.

(** With only the binary built, asking for the hex file fails. *)
Example locate_hex_no_fallback :
  res (Run.locate true Demo.linux)
  = Raise (BinaryFileNotFoundError
             (py "Build program file (firmware) not found /build/myapp.hex")).
Proof. vm_compute. reflexivity. Qed.

Example flash_linux_calls :
  calls (Run.flash "k64f" false Demo.linux)
  = [CallGetConnectedDevices; CallExists (PosixPath "/build/myapp.bin");
     CallResolve (PosixPath "/media/DAPLINK");
     CallCopy (PosixPath "/build/myapp.bin") (PosixPath "/media/DAPLINK");
     CallSync].
Proof. vm_compute. reflexivity. Qed.

Example flash_linux_writes :
  fs (final (Run.flash "k64f" false Demo.linux))
     (PosixPath "/media/DAPLINK/myapp.bin")
  = Some (Reg Demo.image).
Proof. vm_compute. reflexivity. Qed.

Example flash_windows_calls :
  calls (Run.flash "k64f" false Demo.windows)
  = [CallGetConnectedDevices; CallExists (PosixPath "/build/myapp.bin");
     CallResolve (PosixPath "/media/DAPLINK");
     CallCopy (PosixPath "/build/myapp.bin") (PosixPath "/media/DAPLINK")].
Proof. vm_compute. reflexivity. Qed.

(** The first run finds no board; the second, after the board was plugged
    in, finds it. *)
Example flash_sees_new_board :
  let first := Run.flash "K64F" false Demo.plugged_later in
  res first = Raise (DeviceNotFoundError not_connected_msg)
  /\ res (Run.flash "K64F" false (final first)) = Ok tt.
Proof. vm_compute. split; reflexivity. Qed.

(** ** The theorems at the sample worlds *)

(** The lower-case target [k64f] finds the board that reports [K64F], the
    first of the two boards of that type in the listing. *)
Lemma C1_witness :
  board_type (mbed_board Demo.k64f) = py "K64F"
  /\ is_ascii (py "k64f")
  /\ ascii_listing (current_listing Demo.linux)
  /\ same_letters (py "K64F") (py "k64f") = true
  /\ res (Run.find "k64f" Demo.linux) = Ok Demo.k64f
  /\ exists before after,
      current_listing Demo.linux = before ++ Demo.k64f :: after
      /\ (forall x, In x before ->
                    same_letters (board_type (mbed_board x)) (py "k64f")
                    = false).
Proof.
  assert (Hc : res (Run.find "k64f" Demo.linux) = Ok Demo.k64f)
    by (vm_compute; reflexivity).
  assert (He : exists d, In d (current_listing Demo.linux)
                         /\ same_letters (board_type (mbed_board d))
                                         (py "k64f") = true).
  { exists Demo.k64f. split; [simpl; tauto | reflexivity]. }
  destruct (proj2 (@C1_find_returns_first_match
                     cpython_table (py "k64f") Demo.linux
                     cpython_ascii_faithful)
                  is_ascii_py_k64f ascii_listing_linux He)
    as (before & d & after & E & Hb & _ & _ & Hres).
  assert (Hd : d = Demo.k64f).
  { unfold Run.find in Hc. rewrite Hc in Hres. now injection Hres. }
  subst d.
  split; [reflexivity|split; [exact is_ascii_py_k64f|]].
  split; [exact ascii_listing_linux|split; [reflexivity|split; [exact Hc|]]].
  exists before, after. exact (conj E Hb).
Defined.

Lemma C2_witness :
  with_suffix (truediv (PosixPath "/build") (name (PosixPath "myapp")))
              (py ".bin") = Some (PosixPath "/build/myapp.bin")
  /\ path_exists (fs Demo.linux) (PosixPath "/build/myapp.bin") = true
  /\ res (Run.locate false Demo.linux) = Ok (PosixPath "/build/myapp.bin")
  /\ final (Run.locate false Demo.linux) = Demo.linux
  /\ calls (Run.locate false Demo.linux)
     = [CallExists (PosixPath "/build/myapp.bin")]
  /\ suffix (PosixPath "/build/myapp.bin") = py ".bin"
  /\ (clean (name (PosixPath "myapp"))
      -> parent (PosixPath "/build/myapp.bin") = PosixPath "/build").
Proof.
  assert (Hc : with_suffix
                 (truediv (PosixPath "/build") (name (PosixPath "myapp")))
                 (if false then py ".hex" else py ".bin")
               = Some (PosixPath "/build/myapp.bin"))
    by (vm_compute; reflexivity).
  assert (He : path_exists (fs Demo.linux) (PosixPath "/build/myapp.bin")
               = true) by (vm_compute; reflexivity).
  split; [exact Hc|split; [exact He|]].
  exact (@C2_build_path_returns_existing_candidate
           (PosixPath "myapp") (PosixPath "/build") false Demo.linux
           (PosixPath "/build/myapp.bin") Hc He).
Defined.

Lemma C3_witness :
  res (Run.find "LPC1768" Demo.linux)
  = Raise (DeviceNotFoundError not_connected_msg)
  /\ res (Run.flash "LPC1768" false Demo.linux)
     = Raise (DeviceNotFoundError not_connected_msg)
  /\ fs (final (Run.flash "LPC1768" false Demo.linux)) = fs Demo.linux
  /\ count is_copy (calls (Run.flash "LPC1768" false Demo.linux)) = 0
  /\ count is_sync (calls (Run.flash "LPC1768" false Demo.linux)) = 0
  /\ (res (Run.find "LPC1768" Demo.linux)
      = Raise (DeviceNotFoundError not_connected_msg) ->
      Run.flash "LPC1768" false Demo.linux
      = mkOutcome (Raise (DeviceNotFoundError not_connected_msg))
                  (final (Run.find "LPC1768" Demo.linux))
                  (calls (Run.find "LPC1768" Demo.linux))).
Proof.
  assert (H : res (Run.find "LPC1768" Demo.linux)
              = Raise (DeviceNotFoundError not_connected_msg))
    by (vm_compute; reflexivity).
  split; [exact H|].
  exact (@C3_failed_lookup_aborts_before_copy
           cpython_table (PosixPath "myapp") (PosixPath "/build") (py "LPC1768")
           false Demo.linux (DeviceNotFoundError not_connected_msg)
           (or_introl H)).
Defined.

(** At [Demo.nothing_built] the board is found and the artifact is not. *)
Example flash_nothing_built :
  let o := Run.flash "K64F" false Demo.nothing_built in
  res o = Raise (BinaryFileNotFoundError
                   (py "Build program file (firmware) not found /build/myapp.bin"))
  /\ calls o = [CallGetConnectedDevices;
                CallExists (PosixPath "/build/myapp.bin")].
Proof. vm_compute. split; reflexivity. Qed.

(** C4, as stated, fails. At [Demo.link_artifact] the located artifact is a
    symbolic link to the image; the run succeeds and leaves a symbolic link
    with the same text on the device, not the image bytes. At
    [Demo.link_on_disk] a symbolic link sits at the destination; the run
    succeeds, the link is still there, and the image went to the entry the
    link names. *)
Lemma C4_counterexample :
  let dst := PosixPath "/media/DAPLINK/myapp.bin" in
  let o := Run.flash "K64F" false Demo.link_artifact in
  let o' := Run.flash "K64F" false Demo.link_on_disk in
  (res (Run.locate false Demo.link_artifact)
   = Ok (PosixPath "/build/myapp.bin")
   /\ fs Demo.link_artifact (PosixPath "/build/myapp.bin")
      = Some (Link (py "real.bin"))
   /\ read_bytes (fs Demo.link_artifact) (PosixPath "/build/myapp.bin")
      = inr Demo.image
   /\ res o = Ok tt
   /\ fs (final o) dst = Some (Link (py "real.bin"))
   /\ fs (final o) dst <> Some (Reg Demo.image))
  /\ (fs Demo.link_on_disk dst = Some (Link (py "/tmp/old.bin"))
      /\ res o' = Ok tt
      /\ fs (final o') dst = Some (Link (py "/tmp/old.bin"))
      /\ fs (final o') dst <> Some (Reg Demo.image)
      /\ fs Demo.link_on_disk (PosixPath "/tmp/old.bin") = None
      /\ fs (final o') (PosixPath "/tmp/old.bin") = Some (Reg Demo.image)).
Proof.
  vm_compute. repeat split; try reflexivity; discriminate.
Qed.

Lemma C4_witness :
  let o := Run.flash "K64F" false Demo.link_artifact in
  res o = Ok tt
  /\ exists fw_file disk dst,
      res (_build_binary_file_path
             (PosixPath "myapp") (PosixPath "/build") false
             (final (Run.find "K64F" Demo.link_artifact))) = Ok fw_file
      /\ filter is_copy (calls o) = [CallCopy fw_file disk]
      /\ dst = Shutil.copy_target (fs Demo.link_artifact) fw_file disk
      /\ (forall text,
             fs Demo.link_artifact fw_file = Some (Link text) ->
             fs Demo.link_artifact dst = None
             /\ fs (final o) dst = Some (Link text)
             /\ (forall p, p <> dst ->
                           fs (final o) p = fs Demo.link_artifact p))
      /\ (forall text,
             islink (fs Demo.link_artifact) fw_file = false ->
             fs Demo.link_artifact dst = Some (Link text) ->
             fs (final o) dst = Some (Link text)
             /\ exists q data,
                 q <> dst
                 /\ follow MAXSYMLINKS (fs Demo.link_artifact) dst
                    = At q (fs Demo.link_artifact q)
                 /\ read_bytes (fs Demo.link_artifact) fw_file = inr data
                 /\ fs (final o) q = Some (Reg data)).
Proof.
  assert (H : res (Run.flash "K64F" false Demo.link_artifact) = Ok tt)
    by (vm_compute; reflexivity).
  split; [exact H|].
  exact (@C4_link_artifact_copied_as_link
           cpython_table (PosixPath "myapp") (PosixPath "/build") (py "K64F")
           false Demo.link_artifact H).
Defined.

(** No board of the listing is an [LPC1768]: the lookup fails. *)
Lemma C5_witness :
  (forall d, In d (current_listing Demo.linux) ->
             same_letters (board_type (mbed_board d)) (py "LPC1768") = false)
  /\ res (Run.find "LPC1768" Demo.linux)
     = Raise (DeviceNotFoundError not_connected_msg)
  /\ calls (Run.find "LPC1768" Demo.linux) = [CallGetConnectedDevices].
Proof.
  assert (Hn : forall d, In d (current_listing Demo.linux) ->
                         same_letters (board_type (mbed_board d))
                                      (py "LPC1768") = false).
  { intros d [<-|[<-|[<-|[]]]]; reflexivity. }
  destruct (@C5_device_not_found_iff_no_match
              cpython_table (py "LPC1768") Demo.linux cpython_ascii_faithful)
    as (_ & Hiff & _ & Hcalls & _).
  split; [exact Hn|split; [|exact Hcalls]].
  exact (proj2 (Hiff is_ascii_py_lpc1768 ascii_listing_linux) Hn).
Defined.

(** The first run finds no board; the board is plugged in, and the second
    run, reading the next listing, flashes it. *)
Lemma C9_witness :
  let first := Run.flash "K64F" false Demo.plugged_later in
  count is_enumeration (calls first) = 1
  /\ res first = Raise (DeviceNotFoundError not_connected_msg)
  /\ res (Run.flash "K64F" false (final first)) = Ok tt.
Proof.
  pose proof (@C9_one_fresh_enumeration_per_call
                cpython_table (PosixPath "myapp") (PosixPath "/build")
                (py "K64F") false Demo.plugged_later) as H.
  cbn zeta in H. destruct H as (Hn & _ & _ & _ & Hfirst & Hnext).
  split; [exact Hn|split].
  - unfold Run.flash. rewrite Hfirst. vm_compute. reflexivity.
  - unfold Run.flash.
    rewrite (proj2 (Hnext (PosixPath "myapp") (PosixPath "/build")
                          (py "K64F") false)).
    vm_compute. reflexivity.
Defined.



Lemma C7_witness :
  let o := Run.flash "k64f" false Demo.linux in
  res o = Ok tt
  /\ system Demo.linux <> py "Windows"
  /\ exists pre src dst,
      Shutil.copy (fs Demo.linux) src dst false = inr (fs (final o))
      /\ count is_sync pre = 0
      /\ count is_copy pre = 0
      /\ calls o = pre ++ [CallCopy src dst; CallSync].
Proof.
  assert (H : res (Run.flash "k64f" false Demo.linux) = Ok tt)
    by (vm_compute; reflexivity).
  assert (Hs : system Demo.linux <> py "Windows")
    by (vm_compute; discriminate).
  split; [exact H|split; [exact Hs|]].
  destruct (proj1 (@C7_sync_after_copy_unless_windows
                     cpython_table (PosixPath "myapp") (PosixPath "/build")
                     (py "k64f") false Demo.linux) H)
    as (pre & src & dst & Hc & H1 & H2 & Hl & _).
  exists pre, src, dst. exact (conj Hc (conj H1 (conj H2 (Hl Hs)))).
Defined.

Lemma C8_witness :
  let o := Run.flash "k64f" false Demo.linux in
  res (Run.find "k64f" Demo.linux) = Ok Demo.k64f
  /\ mount_points Demo.k64f
     = [PosixPath "/media/DAPLINK"; PosixPath "/media/DAPLINK_ALT"]
  /\ filter is_copy (calls o)
     = [CallCopy (PosixPath "/build/myapp.bin")
                 (realpath Demo.linux (PosixPath "/media/DAPLINK"))]
  /\ In (CallResolve (PosixPath "/media/DAPLINK")) (calls o)
  /\ (res o = Ok tt ->
      Shutil.copy (fs Demo.linux) (PosixPath "/build/myapp.bin")
                  (realpath Demo.linux (PosixPath "/media/DAPLINK")) false
      = inr (fs (final o))).
Proof.
  assert (Hd : res (Run.find "k64f" Demo.linux) = Ok Demo.k64f)
    by (vm_compute; reflexivity).
  assert (Hf : res (_build_binary_file_path
                      (PosixPath "myapp") (PosixPath "/build") false
                      (final (Run.find "k64f" Demo.linux)))
               = Ok (PosixPath "/build/myapp.bin"))
    by (vm_compute; reflexivity).
  split; [exact Hd|split; [reflexivity|]].
  exact (@C8_copy_goes_to_first_mount_point
           cpython_table (PosixPath "myapp") (PosixPath "/build") (py "k64f")
           false Demo.linux Demo.k64f (PosixPath "/build/myapp.bin")
           (PosixPath "/media/DAPLINK") [PosixPath "/media/DAPLINK_ALT"]
           Hd Hf eq_refl).
Defined.

(** C10, as stated, fails. At [Demo.no_mount_nothing_built] the resolved
    board has no mount point and nothing was built: the run ends in
    [BinaryFileNotFoundError], raised before the mount points are read, and
    not in [IndexError]. *)
Lemma C10_counterexample :
  let o := Run.flash "K64F" false Demo.no_mount_nothing_built in
  res (Run.find "K64F" Demo.no_mount_nothing_built) = Ok Demo.unmounted
  /\ mount_points Demo.unmounted = []
  /\ res o = Raise (BinaryFileNotFoundError
                      (py "Build program file (firmware) not found /build/myapp.bin"))
  /\ res o <> Raise IndexError.
Proof.
  vm_compute. repeat split; try reflexivity; discriminate.
Qed.

Lemma C10_witness :
  let o := Run.flash "K64F" false Demo.no_mount in
  res (Run.find "K64F" Demo.no_mount) = Ok Demo.unmounted
  /\ mount_points Demo.unmounted = []
  /\ res (Run.locate false (final (Run.find "K64F" Demo.no_mount)))
     = Ok (PosixPath "/build/myapp.bin")
  /\ res o = Raise IndexError
  /\ fs (final o) = fs Demo.no_mount
  /\ count is_copy (calls o) = 0.
Proof.
  assert (Hd : res (Run.find "K64F" Demo.no_mount) = Ok Demo.unmounted)
    by (vm_compute; reflexivity).
  assert (Hf : res (Run.locate false (final (Run.find "K64F" Demo.no_mount)))
               = Ok (PosixPath "/build/myapp.bin"))
    by (vm_compute; reflexivity).
  split; [exact Hd|split; [reflexivity|split; [exact Hf|]]].
  exact (proj1 (@C10_empty_mount_points_index_error
                  cpython_table (PosixPath "myapp") (PosixPath "/build")
                  (py "K64F") false Demo.no_mount Demo.unmounted Hd)
               eq_refl (PosixPath "/build/myapp.bin") Hf).
Defined.

(** ** The further properties at the sample worlds *)

Example flash_gone_mount_point :
  let o := Run.flash "K64F" false Demo.gone in
  res o = Ok tt
  /\ fs Demo.gone (PosixPath "/media/GONE") = None
  /\ fs (final o) (PosixPath "/media/GONE") = Some (Reg Demo.image).
Proof. vm_compute. repeat split; reflexivity. Qed.

Lemma find_ignores_target_case_witness :
  caseless_eq (U := cpython_table) (py "k64f") (py "K64F")
  /\ Run.find "k64f" Demo.linux = Run.find "K64F" Demo.linux
  /\ (forall program_path build_dir hex_file,
         flash_binary (U := cpython_table) program_path build_dir (py "k64f")
                      hex_file Demo.linux
         = flash_binary (U := cpython_table) program_path build_dir (py "K64F")
                        hex_file Demo.linux).
Proof.
  assert (H : caseless_eq (U := cpython_table) (py "k64f") (py "K64F"))
    by (vm_compute; reflexivity).
  split; [exact H|].
  exact (@find_ignores_target_case cpython_table (py "k64f") (py "K64F")
                                   Demo.linux H).
Defined.

Lemma find_stable_under_appended_devices_witness :
  current_listing Demo.linux
  = current_listing Demo.windows ++ [Demo.k64f_lower]
  /\ res (Run.find "k64f" Demo.linux)
     = match res (Run.find "k64f" Demo.windows) with
       | Ok d => Ok d
       | Raise _ => lookup_in (U := cpython_table) [Demo.k64f_lower] (py "k64f")
       end.
Proof.
  assert (H : current_listing Demo.linux
              = current_listing Demo.windows ++ [Demo.k64f_lower])
    by reflexivity.
  split; [exact H|].
  exact (@find_stable_under_appended_devices
           cpython_table (py "k64f") Demo.windows Demo.linux
           [Demo.k64f_lower] H).
Defined.


Lemma copy_failure_propagates_without_sync_witness :
  Shutil.copy (fs Demo.in_place) (PosixPath "/build/myapp.bin")
              (realpath Demo.in_place (PosixPath "/build")) false
  = inl SameFileError
  /\ res (Run.flash "K64F" false Demo.in_place) = Raise SameFileError
  /\ calls (Run.flash "K64F" false Demo.in_place)
     = [CallGetConnectedDevices; CallExists (PosixPath "/build/myapp.bin");
        CallResolve (PosixPath "/build");
        CallCopy (PosixPath "/build/myapp.bin")
                 (realpath Demo.in_place (PosixPath "/build"))]
  /\ (SameFileError = SameFileError \/ exists n, SameFileError = OSError n).
Proof.
  assert (Hd : res (Run.find "K64F" Demo.in_place) = Ok Demo.k64f_on_build)
    by (vm_compute; reflexivity).
  assert (Hf : res (Run.locate false Demo.in_place)
               = Ok (PosixPath "/build/myapp.bin"))
    by (vm_compute; reflexivity).
  assert (Hc : Shutil.copy (fs Demo.in_place) (PosixPath "/build/myapp.bin")
                           (realpath Demo.in_place (PosixPath "/build")) false
               = inl SameFileError) by (vm_compute; reflexivity).
  split; [exact Hc|].
  exact (@copy_failure_propagates_without_sync
           cpython_table (PosixPath "myapp") (PosixPath "/build") (py "K64F")
           false Demo.in_place Demo.k64f_on_build
           (PosixPath "/build/myapp.bin") (PosixPath "/build") []
           SameFileError Hd Hf eq_refl Hc).
Defined.

(** Flashing again over an older image under the same name. *)
Lemma flashed_image_readable_witness :
  let o := Run.flash "K64F" false Demo.reflash in
  res o = Ok tt
  /\ exists device fw_file mp rest,
      res (Run.find "K64F" Demo.reflash) = Ok device
      /\ res (Run.locate false Demo.reflash) = Ok fw_file
      /\ mount_points device = mp :: rest
      /\ (islink (fs Demo.reflash) fw_file = false ->
          exists data,
            read_bytes (fs Demo.reflash) fw_file = inr data
            /\ read_bytes (fs (final o))
                          (Shutil.copy_target (fs Demo.reflash) fw_file
                                              (realpath Demo.reflash mp))
               = inr data).
Proof.
  assert (H : res (Run.flash "K64F" false Demo.reflash) = Ok tt)
    by (vm_compute; reflexivity).
  split; [exact H|].
  exact (@flashed_image_readable
           cpython_table (PosixPath "myapp") (PosixPath "/build") (py "K64F")
           false Demo.reflash H).
Defined.

Lemma flash_changes_one_entry_witness :
  let o := Run.flash "k64f" false Demo.linux in
  res o = Ok tt
  /\ exists fw_file written,
      res (Run.locate false Demo.linux) = Ok fw_file
      /\ written <> fw_file
      /\ fs (final o) fw_file = fs Demo.linux fw_file
      /\ (forall p, p <> written -> fs (final o) p = fs Demo.linux p).
Proof.
  assert (H : res (Run.flash "k64f" false Demo.linux) = Ok tt)
    by (vm_compute; reflexivity).
  split; [exact H|].
  exact (@flash_changes_one_entry
           cpython_table (PosixPath "myapp") (PosixPath "/build") (py "k64f")
           false Demo.linux H).
Defined.

Lemma flashed_file_path_witness :
  let o := Run.flash "K64F" false Demo.reflash in
  name (parse_parts (py "myapp")) <> []
  /\ res o = Ok tt
  /\ fs Demo.reflash (PosixPath "/build/myapp.bin") = Some (Reg Demo.image)
  /\ exists device mp rest,
      res (Run.find "K64F" Demo.reflash) = Ok device
      /\ mount_points device = mp :: rest
      /\ (isdir (fs Demo.reflash) (realpath Demo.reflash mp) = true ->
          read_bytes (fs (final o))
                     (mkPath (anchor (realpath Demo.reflash mp))
                             (comps (realpath Demo.reflash mp)
                                ++ [py "myapp.bin"]))
          = inr Demo.image)
      /\ (isdir (fs Demo.reflash) (realpath Demo.reflash mp) = false ->
          read_bytes (fs (final o)) (realpath Demo.reflash mp)
          = inr Demo.image).
Proof.
  assert (Hn : name (parse_parts (py "myapp")) <> [])
    by (vm_compute; discriminate).
  assert (H : res (Run.flash "K64F" false Demo.reflash) = Ok tt)
    by (vm_compute; reflexivity).
  assert (Hr : fs Demo.reflash (PosixPath "/build/myapp.bin")
               = Some (Reg Demo.image)) by (vm_compute; reflexivity).
  split; [exact Hn|split; [exact H|split; [exact Hr|]]].
  exact (@flashed_file_path
           cpython_table (py "myapp") (py "/build") (py "K64F") false
           Demo.reflash Demo.image Hn H Hr).
Defined.

Lemma flash_onto_build_dir_same_file_witness :
  let o := Run.flash "K64F" false Demo.in_place in
  res (Run.find "K64F" Demo.in_place) = Ok Demo.k64f_on_build
  /\ realpath Demo.in_place (PosixPath "/build") = parse_parts (py "/build")
  /\ isdir (fs Demo.in_place) (parse_parts (py "/build")) = true
  /\ res o = Raise SameFileError
  /\ fs (final o) = fs Demo.in_place
  /\ ~ In CallSync (calls o).
Proof.
  assert (Hn : name (parse_parts (py "myapp")) <> [])
    by (vm_compute; discriminate).
  assert (Hd : res (Run.find "K64F" Demo.in_place) = Ok Demo.k64f_on_build)
    by (vm_compute; reflexivity).
  assert (Hdir : isdir (fs Demo.in_place) (parse_parts (py "/build")) = true)
    by (vm_compute; reflexivity).
  split; [exact Hd|split; [reflexivity|split; [exact Hdir|]]].
  refine (@flash_onto_build_dir_same_file
            cpython_table (py "myapp") (py "/build") (py "K64F") false
            Demo.in_place Demo.k64f_on_build (PosixPath "/build") []
            Hn Hd eq_refl eq_refl Hdir _).
  vm_compute. reflexivity.
Defined.

Lemma upper_eq_same_letters_on_ascii_witness :
  is_ascii (py "k64f") /\ is_ascii (py "K64F")
  /\ same_letters (py "k64f") (py "K64F") = true
  /\ str_eqb (upper (U := cpython_table) (py "k64f"))
             (upper (U := cpython_table) (py "K64F")) = true.
Proof.
  assert (Hb : is_ascii (py "K64F")) by repeat constructor.
  split; [exact is_ascii_py_k64f|split; [exact Hb|split; [reflexivity|]]].
  exact (proj2 (@upper_eq_same_letters_on_ascii
                  cpython_table (py "k64f") (py "K64F")
                  cpython_ascii_faithful is_ascii_py_k64f Hb)
               eq_refl).
Defined.

(** Outside ASCII the comparison is Unicode's: the target [straße] finds a
    board that reports [STRASSE]. *)
Example find_sharp_s :
  upper (U := cpython_table) [115; 116; 114; 97; 223; 101]%N = py "STRASSE"
  /\ res (_find_connected_device
            (U := cpython_table) [115; 116; 114; 97; 223; 101]%N
            (Demo.world_of [mkDevice (mkBoard (py "STRASSE")) []]
                           Demo.fs_bin "Linux"))
     = Ok (mkDevice (mkBoard (py "STRASSE")) []).
Proof. vm_compute. split; reflexivity. Qed.
